(** * FRED search-result parser: a shallow embedding and its properties

    The development embeds [parse_search_result_file], the routine that the
    two converters [convert_search_results.py] and
    [convert_search_results_markdown.py] each carry a copy of, and proves
    properties of the embedded code.

    Modelling conventions.
    - A Python [str] is a list of characters ([list ascii]); a character is
      a code point below 256.  On that range [str.isspace] and the regex
      class [\s] hold exactly for 9-13, 28-32, 133 and 160, the class [\d]
      for the ten digits, and [.] for everything but the line feed.
    - The file system is outside the model: the routine takes the file's
      stem ([file_path.stem]) and its decoded text
      ([file_path.read_text(...)]) as arguments.
    - Subscripting a list out of range raises [IndexError]; the model
      returns it as a value, so that "does not raise" is a statement.
    - The two [while] loops run on fuel; [OutOfFuel] is the model's value
      for a loop that has not finished, and the top-level routine supplies
      the fuel itself. *)

From Stdlib Require Import Ascii String List Arith Lia Bool PeanoNat Permutation.
Import ListNotations.

(** ** Python built-ins used by the routine *)

Module Py.

Definition str := list ascii.

Definition lit (s : string) : str := list_ascii_of_string s.

Arguments lit : simpl never.

(** [str.isspace] of one character. *)
Definition isspace (c : ascii) : bool :=
  let n := nat_of_ascii c in
  ((9 <=? n) && (n <=? 13)) || ((28 <=? n) && (n <=? 32))
  || (n =? 133) || (n =? 160).

Fixpoint lstrip (s : str) : str :=
  match s with
  | [] => []
  | c :: s' => if isspace c then lstrip s' else s
  end.

Definition rstrip (s : str) : str := rev (lstrip (rev s)).

(** [s.strip()] *)
Definition strip (s : str) : str := rstrip (lstrip s).

(** Truth value of a string or a list: [not x] is [is_empty x]. *)
Definition is_empty {A : Type} (l : list A) : bool :=
  match l with [] => true | _ :: _ => false end.

Definition str_eqb (a b : str) : bool :=
  if list_eq_dec Ascii.ascii_dec a b then true else false.

(** [s.startswith(p)] *)
Fixpoint startswith (s p : str) {struct p} : bool :=
  match p with
  | [] => true
  | a :: p' =>
      match s with
      | [] => false
      | b :: s' => Ascii.eqb a b && startswith s' p'
      end
  end.

(** [s.startswith((p1, ..., pn))] *)
Definition startswith_any (s : str) (ps : list str) : bool :=
  existsb (startswith s) ps.

(** [sub in s] *)
Fixpoint contains (sub s : str) : bool :=
  startswith s sub ||
  match s with
  | [] => false
  | _ :: s' => contains sub s'
  end.

(** [s.replace(old, new)] for a non-empty [old]: every occurrence found
    scanning from the left is replaced, and the scan resumes after it.
    [skip] counts the characters of the current occurrence still to pass. *)
Fixpoint replace_from (skip : nat) (s old new : str) : str :=
  match s with
  | [] => []
  | c :: s' =>
      match skip with
      | S k => replace_from k s' old new
      | O =>
          if startswith s old
          then new ++ replace_from (length old - 1) s' old new
          else c :: replace_from 0 s' old new
      end
  end.

Definition replace (s old new : str) : str := replace_from 0 s old new.

Definition newline : ascii := ascii_of_nat 10.

(** [s.split(sep)] for a one-character separator: never the empty list. *)
Fixpoint split (s : str) (sep : ascii) : list str :=
  match s with
  | [] => [[]]
  | c :: s' =>
      if Ascii.eqb c sep then [] :: split s' sep
      else match split s' sep with
           | [] => [[c]]
           | l :: ls => (c :: l) :: ls
           end
  end.

(** [sep.join(l)] *)
Fixpoint join (sep : str) (l : list str) : str :=
  match l with
  | [] => []
  | x :: l' =>
      match l' with
      | [] => x
      | _ :: _ => x ++ sep ++ join sep l'
      end
  end.

(** Errors and non-termination as values. *)
Inductive outcome (A : Type) : Type :=
| Done (a : A)
| IndexError
| OutOfFuel.

Arguments Done {A} a.
Arguments IndexError {A}.
Arguments OutOfFuel {A}.

Definition bind {A B : Type} (m : outcome A) (k : A -> outcome B) : outcome B :=
  match m with
  | Done a => k a
  | IndexError => IndexError
  | OutOfFuel => OutOfFuel
  end.

(** [l[k]] for a non-negative [k] *)
Definition getitem {A : Type} (l : list A) (k : nat) : outcome A :=
  match nth_error l k with
  | Some x => Done x
  | None => IndexError
  end.

End Py.

Import Py.

Notation "x <- m ;; k" := (bind m (fun x => k))
  (at level 61, m at next level, right associativity).

(** ** The regular expressions of the routine

    Each pattern is matched by [re.match], that is, at the start of the
    string and with no anchor at its end.  Greedy repetition of a character
    class always takes the longest run here, because in each pattern the
    character that must follow the run lies outside the class. *)

Module Re.

Definition isdigit (c : ascii) : bool :=
  let n := nat_of_ascii c in (48 <=? n) && (n <=? 57).

Definition isupper (c : ascii) : bool :=
  let n := nat_of_ascii c in (65 <=? n) && (n <=? 90).

(** [[A-Z0-9]] *)
Definition is_id_char (c : ascii) : bool := isupper c || isdigit c.

(** [.] *)
Definition is_dot_char (c : ascii) : bool := negb (Ascii.eqb c newline).

(** Longest prefix in a class, and what follows it. *)
Fixpoint span (p : ascii -> bool) (s : str) : str * str :=
  match s with
  | [] => ([], [])
  | c :: s' =>
      if p c then let (a, b) := span p s' in (c :: a, b)
      else ([], s)
  end.

(** [re.match(r"\d+\.", s)] as a truth value *)
Definition match_number_dot (s : str) : bool :=
  let (ds, r) := span isdigit s in
  negb (is_empty ds) && startswith r (lit ".").

(** [re.match(r"\d+\. ([A-Z0-9]+) - (.+)", s)]: the groups 1 and 2 of the
    match, or [None]. *)
Definition match_series (s : str) : option (str * str) :=
  let (ds, r1) := span isdigit s in
  if is_empty ds then None
  else if negb (startswith r1 (lit ". ")) then None
  else
    let (g1, r2) := span is_id_char (skipn 2 r1) in
    if is_empty g1 then None
    else if negb (startswith r2 (lit " - ")) then None
    else
      let (g2, _) := span is_dot_char (skipn 3 r2) in
      if is_empty g2 then None else Some (g1, g2).

End Re.

Import Re.

(** ** The dictionaries the routine builds *)

(** [metadata] *)
Record Metadata : Type := mkMetadata {
  md_frequency : str;
  md_units : str;
  md_last_updated : str;
  md_notes : str
}.

(** An element of [results]: [{"series_id": .., "title": .., **metadata}] *)
Record SeriesRecord : Type := mkSeriesRecord {
  series_id : str;
  title : str;
  frequency : str;
  units : str;
  last_updated : str;
  notes : str
}.

(** The returned dictionary.  The early return builds one without the key
    ["result_count"]; the return at the end builds one with it. *)
Inductive ParsedResult : Type :=
| WithoutCount (query : str) (results : list SeriesRecord)
| WithCount (query : str) (result_count : nat) (results : list SeriesRecord).

Definition query_of (p : ParsedResult) : str :=
  match p with
  | WithoutCount q _ => q
  | WithCount q _ _ => q
  end.

Definition results_of (p : ParsedResult) : list SeriesRecord :=
  match p with
  | WithoutCount _ r => r
  | WithCount _ _ r => r
  end.

(** [p.get("result_count")] *)
Definition result_count_of (p : ParsedResult) : option nat :=
  match p with
  | WithoutCount _ _ => None
  | WithCount _ n _ => Some n
  end.

Definition empty_metadata : Metadata := mkMetadata [] [] [] [].

Definition set_units (md : Metadata) (v : str) : Metadata :=
  mkMetadata (md_frequency md) v (md_last_updated md) (md_notes md).

Definition set_frequency (md : Metadata) (v : str) : Metadata :=
  mkMetadata v (md_units md) (md_last_updated md) (md_notes md).

Definition set_last_updated (md : Metadata) (v : str) : Metadata :=
  mkMetadata (md_frequency md) (md_units md) v (md_notes md).

Definition set_notes (md : Metadata) (v : str) : Metadata :=
  mkMetadata (md_frequency md) (md_units md) (md_last_updated md) v.

Definition make_record (sid ttl : str) (md : Metadata) : SeriesRecord :=
  mkSeriesRecord sid ttl (md_frequency md) (md_units md)
    (md_last_updated md) (md_notes md).

Definition header_prefixes : list str :=
  [lit "FRED Series"; lit "Query:"; lit "Timestamp:"; lit "Total Results:"].

Definition sentinel : str := lit "No description available".

(** ** [convert_search_results.py] *)

Module ConvertSearchResults.

(** The [for line in lines[:10]] loop with its [break]; [query] starts as
    the file's stem. *)
Fixpoint find_query (first_lines : list str) (query : str) : str :=
  match first_lines with
  | [] => query
  | line :: rest =>
      if startswith line (lit "Query: ")
      then strip (replace line (lit "Query: ") [])
      else find_query rest query
  end.

(** One pass through the body of the inner [while j < len(lines)] loop.
    [None] is [break]; [Some (metadata, notes_lines)] is the state with
    which the loop goes on at [j + 1]. *)
Definition lookahead_body (lines : list str) (i j : nat)
    (metadata : Metadata) (notes_lines : list str)
    : outcome (option (Metadata * list str)) :=
  raw <- getitem lines j ;;
  let next_line := strip raw in
  if is_empty next_line then
    if j + 1 <? length lines then
      after <- getitem lines (j + 1) ;;
      if match_number_dot (strip after) then Done None
      else Done (Some (metadata, notes_lines))
    else Done (Some (metadata, notes_lines))
  else if match_number_dot next_line then Done None
  else if startswith next_line (lit "Units: ") then
    Done (Some (set_units metadata
                  (strip (replace next_line (lit "Units: ") [])),
                notes_lines))
  else if startswith next_line (lit "Frequency: ") then
    Done (Some (set_frequency metadata
                  (strip (replace next_line (lit "Frequency: ") [])),
                notes_lines))
  else if startswith next_line (lit "Last Updated: ") then
    Done (Some (set_last_updated metadata
                  (strip (replace next_line (lit "Last Updated: ") [])),
                notes_lines))
  else if startswith next_line (lit "Notes: ") then
    let note_text := strip (replace next_line (lit "Notes: ") []) in
    if negb (str_eqb note_text sentinel)
    then Done (Some (metadata, notes_lines ++ [note_text]))
    else Done (Some (metadata, notes_lines))
  else if negb (is_empty notes_lines) then
    Done (Some (metadata, notes_lines ++ [next_line]))
  else if i + 1 <? j then
    before <- getitem lines (j - 1) ;;
    if contains (lit "Notes:") before
    then Done (Some (metadata, notes_lines ++ [next_line]))
    else Done (Some (metadata, notes_lines))
  else Done (Some (metadata, notes_lines)).

(** The inner loop; it returns [j], [metadata] and [notes_lines] as they
    are when the loop is left. *)
Fixpoint lookahead (fuel : nat) (lines : list str) (i j : nat)
    (metadata : Metadata) (notes_lines : list str)
    : outcome (nat * Metadata * list str) :=
  match fuel with
  | O => OutOfFuel
  | S fuel' =>
      if j <? length lines then
        step <- lookahead_body lines i j metadata notes_lines ;;
        match step with
        | None => Done (j, metadata, notes_lines)
        | Some (metadata', notes_lines') =>
            lookahead fuel' lines i (j + 1) metadata' notes_lines'
        end
      else Done (j, metadata, notes_lines)
  end.

(** What follows the inner loop: the notes are joined and the record is
    built. *)
Definition finish_record (sid ttl : str) (metadata : Metadata)
    (notes_lines : list str) : SeriesRecord :=
  let metadata' :=
    if negb (is_empty notes_lines)
    then set_notes metadata (strip (join (lit " ") notes_lines))
    else metadata in
  make_record sid ttl metadata'.

(** One pass through the body of the outer [while i < len(lines)] loop:
    the next [i] and [results]. *)
Definition scan_body (lines : list str) (i : nat)
    (results : list SeriesRecord) : outcome (nat * list SeriesRecord) :=
  raw <- getitem lines i ;;
  let line := strip raw in
  if is_empty line || startswith_any line header_prefixes then
    Done (i + 1, results)
  else
    match match_series line with
    | Some (g1, g2) =>
        let sid := strip g1 in
        let ttl := strip g2 in
        found <- lookahead (length lines) lines i (i + 1) empty_metadata [] ;;
        let '(j, metadata, notes_lines) := found in
        Done (j, results ++ [finish_record sid ttl metadata notes_lines])
    | None => Done (i + 1, results)
    end.

(** The outer loop. *)
Fixpoint scan (fuel : nat) (lines : list str) (i : nat)
    (results : list SeriesRecord) : outcome (list SeriesRecord) :=
  match fuel with
  | O => OutOfFuel
  | S fuel' =>
      if i <? length lines then
        next <- scan_body lines i results ;;
        let '(i', results') := next in
        scan fuel' lines i' results'
      else Done results
  end.

(** The routine after the file is read and cut into lines. *)
Definition parse_lines (lines : list str) (stem : str)
    : outcome ParsedResult :=
  if is_empty lines then Done (WithoutCount stem [])
  else
    let query := find_query (firstn 10 lines) stem in
    results <- scan (S (length lines)) lines 0 [] ;;
    Done (WithCount query (length results) results).

Definition parse_search_result_file (stem content : str)
    : outcome ParsedResult :=
  parse_lines (split (strip content) newline) stem.

End ConvertSearchResults.

Import ConvertSearchResults.

(** ** The loop bodies as functions of the lines they read

    The inner loop's body reads the line at [j], the line after it (when it
    tests a blank line) and the line before it (when it tests a line that
    carries no known prefix).  [step] is the body as a function of these
    three lines. *)

Definition stops (raw : str) (after : option str) : bool :=
  if is_empty (strip raw) then
    match after with
    | Some a => match_number_dot (strip a)
    | None => false
    end
  else match_number_dot (strip raw).

Definition absorb (raw : str) (prev : option str)
    (md : Metadata) (nl : list str) : Metadata * list str :=
  let next_line := strip raw in
  if is_empty next_line then (md, nl)
  else if startswith next_line (lit "Units: ") then
    (set_units md (strip (replace next_line (lit "Units: ") [])), nl)
  else if startswith next_line (lit "Frequency: ") then
    (set_frequency md (strip (replace next_line (lit "Frequency: ") [])), nl)
  else if startswith next_line (lit "Last Updated: ") then
    (set_last_updated md
       (strip (replace next_line (lit "Last Updated: ") [])), nl)
  else if startswith next_line (lit "Notes: ") then
    let note_text := strip (replace next_line (lit "Notes: ") []) in
    if negb (str_eqb note_text sentinel) then (md, nl ++ [note_text])
    else (md, nl)
  else if negb (is_empty nl) then (md, nl ++ [next_line])
  else
    match prev with
    | Some before =>
        if contains (lit "Notes:") before then (md, nl ++ [next_line])
        else (md, nl)
    | None => (md, nl)
    end.

Definition step (raw : str) (after prev : option str)
    (md : Metadata) (nl : list str) : option (Metadata * list str) :=
  if stops raw after then None else Some (absorb raw prev md nl).

(** The line before [j] as the body sees it: it is read only when
    [j > i + 1]. *)
Definition previous_line (lines : list str) (i j : nat) : option str :=
  if i + 1 <? j then nth_error lines (j - 1) else None.


(** The record the outer loop builds when its iteration starts at line
    [k]: one record when the trimmed line matches the series pattern, none
    otherwise. *)
Definition record_at (lines : list str) (k : nat) : list SeriesRecord :=
  match nth_error lines k with
  | None => []
  | Some raw =>
      match match_series (strip raw) with
      | None => []
      | Some (g1, g2) =>
          match lookahead (length lines) lines k (k + 1) empty_metadata [] with
          | Done (_, md, nl) => [finish_record (strip g1) (strip g2) md nl]
          | IndexError => []
          | OutOfFuel => []
          end
      end
  end.

(** A string with no white space at either end. *)
Definition trimmed (s : str) : bool :=
  match s with
  | [] => true
  | c :: _ => negb (isspace c)
  end &&
  match rev s with
  | [] => true
  | c :: _ => negb (isspace c)
  end.

(** The kinds of line the inner loop tells apart. *)
Definition is_blank (raw : str) : bool := is_empty (strip raw).

Definition has_field_prefix (raw : str) : bool :=
  startswith (strip raw) (lit "Units: ")
  || startswith (strip raw) (lit "Frequency: ")
  || startswith (strip raw) (lit "Last Updated: ").

Definition has_notes_prefix (raw : str) : bool :=
  startswith (strip raw) (lit "Notes: ").

Definition has_known_prefix (raw : str) : bool :=
  has_field_prefix raw || has_notes_prefix raw.

(** A [Notes: ] line whose text is the sentinel. *)
Definition is_sentinel_notes (raw : str) : bool :=
  negb (has_field_prefix raw) && has_notes_prefix raw
  && str_eqb (strip (replace (strip raw) (lit "Notes: ") [])) sentinel.

(** A line of one of four kinds: a blank line; a units, frequency or
    last-updated line; a notes line whose text is the sentinel; a line
    with no known prefix whose preceding raw line [prev], where the loop
    may read it, does not contain ["Notes:"]. *)
Definition bears_no_notes (raw : str) (prev : option str) : bool :=
  is_blank raw || has_field_prefix raw || is_sentinel_notes raw
  || (negb (has_known_prefix raw)
      && match prev with
         | Some before => negb (contains (lit "Notes:") before)
         | None => true
         end).

(** ** [convert_search_results_markdown.py]

    The Markdown converter carries its own copy of the routine; it is
    embedded from that file, line by line, like the first. *)

Module ConvertSearchResultsMarkdown.

Fixpoint find_query (first_lines : list str) (query : str) : str :=
  match first_lines with
  | [] => query
  | line :: rest =>
      if startswith line (lit "Query: ")
      then strip (replace line (lit "Query: ") [])
      else find_query rest query
  end.

Definition lookahead_body (lines : list str) (i j : nat)
    (metadata : Metadata) (notes_lines : list str)
    : outcome (option (Metadata * list str)) :=
  raw <- getitem lines j ;;
  let next_line := strip raw in
  if is_empty next_line then
    if j + 1 <? length lines then
      after <- getitem lines (j + 1) ;;
      if match_number_dot (strip after) then Done None
      else Done (Some (metadata, notes_lines))
    else Done (Some (metadata, notes_lines))
  else if match_number_dot next_line then Done None
  else if startswith next_line (lit "Units: ") then
    Done (Some (set_units metadata
                  (strip (replace next_line (lit "Units: ") [])),
                notes_lines))
  else if startswith next_line (lit "Frequency: ") then
    Done (Some (set_frequency metadata
                  (strip (replace next_line (lit "Frequency: ") [])),
                notes_lines))
  else if startswith next_line (lit "Last Updated: ") then
    Done (Some (set_last_updated metadata
                  (strip (replace next_line (lit "Last Updated: ") [])),
                notes_lines))
  else if startswith next_line (lit "Notes: ") then
    let note_text := strip (replace next_line (lit "Notes: ") []) in
    if negb (str_eqb note_text sentinel)
    then Done (Some (metadata, notes_lines ++ [note_text]))
    else Done (Some (metadata, notes_lines))
  else if negb (is_empty notes_lines) then
    Done (Some (metadata, notes_lines ++ [next_line]))
  else if i + 1 <? j then
    before <- getitem lines (j - 1) ;;
    if contains (lit "Notes:") before
    then Done (Some (metadata, notes_lines ++ [next_line]))
    else Done (Some (metadata, notes_lines))
  else Done (Some (metadata, notes_lines)).

Fixpoint lookahead (fuel : nat) (lines : list str) (i j : nat)
    (metadata : Metadata) (notes_lines : list str)
    : outcome (nat * Metadata * list str) :=
  match fuel with
  | O => OutOfFuel
  | S fuel' =>
      if j <? length lines then
        step <- lookahead_body lines i j metadata notes_lines ;;
        match step with
        | None => Done (j, metadata, notes_lines)
        | Some (metadata', notes_lines') =>
            lookahead fuel' lines i (j + 1) metadata' notes_lines'
        end
      else Done (j, metadata, notes_lines)
  end.

Definition finish_record (sid ttl : str) (metadata : Metadata)
    (notes_lines : list str) : SeriesRecord :=
  let metadata' :=
    if negb (is_empty notes_lines)
    then set_notes metadata (strip (join (lit " ") notes_lines))
    else metadata in
  make_record sid ttl metadata'.

Definition scan_body (lines : list str) (i : nat)
    (results : list SeriesRecord) : outcome (nat * list SeriesRecord) :=
  raw <- getitem lines i ;;
  let line := strip raw in
  if is_empty line || startswith_any line header_prefixes then
    Done (i + 1, results)
  else
    match match_series line with
    | Some (g1, g2) =>
        let sid := strip g1 in
        let ttl := strip g2 in
        found <- lookahead (length lines) lines i (i + 1) empty_metadata [] ;;
        let '(j, metadata, notes_lines) := found in
        Done (j, results ++ [finish_record sid ttl metadata notes_lines])
    | None => Done (i + 1, results)
    end.

Fixpoint scan (fuel : nat) (lines : list str) (i : nat)
    (results : list SeriesRecord) : outcome (list SeriesRecord) :=
  match fuel with
  | O => OutOfFuel
  | S fuel' =>
      if i <? length lines then
        next <- scan_body lines i results ;;
        let '(i', results') := next in
        scan fuel' lines i' results'
      else Done results
  end.

Definition parse_lines (lines : list str) (stem : str)
    : outcome ParsedResult :=
  if is_empty lines then Done (WithoutCount stem [])
  else
    let query := find_query (firstn 10 lines) stem in
    results <- scan (S (length lines)) lines 0 [] ;;
    Done (WithCount query (length results) results).

Definition parse_search_result_file (stem content : str)
    : outcome ParsedResult :=
  parse_lines (split (strip content) newline) stem.

End ConvertSearchResultsMarkdown.

(** ** The record-start pattern in the specification's words

    [^\d+\.\s+([A-Z0-9]+)\s+-\s+(.+)$] on a trimmed line, with a positive
    integer before the dot: white space of any length after the dot and on
    both sides of the dash.  The groups 1 and 2, or [None]. *)

Module Spec.

Definition positive_number (ds : str) : bool :=
  existsb (fun c => negb (Ascii.eqb c "0"%char)) ds.

Definition match_record_start (s : str) : option (str * str) :=
  let (ds, r1) := span isdigit s in
  if negb (positive_number ds) then None
  else
    match r1 with
    | [] => None
    | dot :: r2 =>
        if negb (Ascii.eqb dot "."%char) then None
        else
          let (w1, r3) := span isspace r2 in
          let (g1, r4) := span is_id_char r3 in
          let (w2, r5) := span isspace r4 in
          if is_empty w1 || is_empty g1 || is_empty w2 then None
          else
            match r5 with
            | [] => None
            | dash :: r6 =>
                if negb (Ascii.eqb dash "-"%char) then None
                else
                  let (w3, g2) := span isspace r6 in
                  if is_empty w3 || is_empty g2
                     || negb (forallb is_dot_char g2)
                  then None
                  else Some (g1, g2)
            end
    end.

(** The rule for a line without a known prefix, as the specification
    words it: absorbed when [notesLines] is non-empty or the raw line at
    [j - 1] contains ["Notes:"]. *)
Definition absorbs_continuation (lines : list str) (j : nat)
    (notes_lines : list str) : bool :=
  negb (is_empty notes_lines)
  || match nth_error lines (j - 1) with
     | Some before => contains (lit "Notes:") before
     | None => false
     end.

(** The text strictly after a prefix of known length. *)
Definition text_after_prefix (line prefix : str) : str :=
  skipn (length prefix) line.

End Spec.

(** The records of a document in line order. *)
Definition records_of (lines : list str) : list SeriesRecord :=
  flat_map (record_at lines) (seq 0 (length lines)).

(** The rule of the code for a line without a known prefix: absorbed when
    [notes_lines] is non-empty, or when [j > i + 1] and the raw line at
    [j - 1] contains ["Notes:"]. *)
Definition absorbs_continuation (lines : list str) (i j : nat)
    (notes_lines : list str) : bool :=
  negb (is_empty notes_lines)
  || ((i + 1 <? j)
      && match nth_error lines (j - 1) with
         | Some before => contains (lit "Notes:") before
         | None => false
         end).

(** Sample documents. *)
Definition doc_number_line : list str :=
  [lit "1. ABC - First"; lit "3.14 is pi"; lit "Units: Percent"].

Definition doc_title_with_notes : list str :=
  [lit "1. ABC - Notes: see below"; lit "stray text"].

Definition doc_two_queries : str := lit "Query: a Query: b".

Definition doc_wide_spacing : list str := [lit "1.  ABC - Title"].

(** The state of the inner loop holds trimmed strings only, and the loop
    never writes [metadata["notes"]]. *)
Definition trimmed_state (md : Metadata) (nl : list str) : Prop :=
  trimmed (md_frequency md) = true /\
  trimmed (md_units md) = true /\
  trimmed (md_last_updated md) = true /\
  md_notes md = [] /\
  Forall (fun l => trimmed l = true) nl.

(** ** The two loops as one pass over the lines

    The outer loop is either between records or, while its inner loop runs,
    inside one.  [run] reads the lines once, from the first to the last;
    the properties section proves that it returns what the two loops
    return.  [prev] is the raw line before the current one when the inner
    loop may read it, that is, from its second line on. *)

Inductive mode : Type :=
| Outside
| Inside (sid ttl : str) (md : Metadata) (nl : list str) (prev : option str).

(** What the outer loop does with a line it reads. *)
Definition enter (raw : str) : mode :=
  let line := strip raw in
  if is_empty line || startswith_any line header_prefixes then Outside
  else
    match match_series line with
    | Some (g1, g2) => Inside (strip g1) (strip g2) empty_metadata [] None
    | None => Outside
    end.

Definition flush (m : mode) : list SeriesRecord :=
  match m with
  | Outside => []
  | Inside sid ttl md nl _ => [finish_record sid ttl md nl]
  end.

Fixpoint run (m : mode) (rest : list str) : list SeriesRecord :=
  match rest with
  | [] => flush m
  | raw :: rest' =>
      match m with
      | Outside => run (enter raw) rest'
      | Inside sid ttl md nl prev =>
          match step raw (hd_error rest') prev md nl with
          | None => finish_record sid ttl md nl :: run (enter raw) rest'
          | Some (md', nl') => run (Inside sid ttl md' nl' (Some raw)) rest'
          end
      end
  end.

(** The four field prefixes, in the order the inner loop tests them. *)
Inductive field : Type := Units | Frequency | LastUpdated | Notes.

Definition field_of (raw : str) : option field :=
  let s := strip raw in
  if startswith s (lit "Units: ") then Some Units
  else if startswith s (lit "Frequency: ") then Some Frequency
  else if startswith s (lit "Last Updated: ") then Some LastUpdated
  else if startswith s (lit "Notes: ") then Some Notes
  else None.



(** What the inner loop does with a line of a given field. *)
Definition field_update (f : field) (next_line : str)
    (md : Metadata) (nl : list str) : Metadata * list str :=
  match f with
  | Units =>
      (set_units md (strip (replace next_line (lit "Units: ") [])), nl)
  | Frequency =>
      (set_frequency md (strip (replace next_line (lit "Frequency: ") [])), nl)
  | LastUpdated =>
      (set_last_updated md
         (strip (replace next_line (lit "Last Updated: ") [])), nl)
  | Notes =>
      let note_text := strip (replace next_line (lit "Notes: ") []) in
      if negb (str_eqb note_text sentinel) then (md, nl ++ [note_text])
      else (md, nl)
  end.

Definition apply_field (st : Metadata * list str) (raw : str)
    : Metadata * list str :=
  absorb raw None (fst st) (snd st).

Definition last_line (prev : option str) (ls : list str) : option str :=
  fold_left (fun _ l => Some l) ls prev.



(** A string without a line feed. *)
Definition no_newline (s : str) : bool := forallb is_dot_char s.

(** All six strings of a record consist of characters in a class. *)
Definition record_chars (p : ascii -> bool) (r : SeriesRecord) : Prop :=
  forallb p (series_id r) = true /\
  forallb p (title r) = true /\
  forallb p (frequency r) = true /\
  forallb p (units r) = true /\
  forallb p (last_updated r) = true /\
  forallb p (notes r) = true.

Definition state_chars (p : ascii -> bool) (md : Metadata) (nl : list str)
    : Prop :=
  forallb p (md_frequency md) = true /\
  forallb p (md_units md) = true /\
  forallb p (md_last_updated md) = true /\
  forallb p (md_notes md) = true /\
  Forall (fun l => forallb p l = true) nl.

(** ** What the converters do with the parsed files

    The rest of the two converters: the Markdown rendering, and the loops
    of [convert_all_search_results] that parse every file and collect the
    results.  The file system stays outside the model.  A source file is
    given by its stem and its text, the list [txt_files] is the sorted
    result of the [glob], and what a converter writes is returned as a
    value.  Console output is not modelled, except for the two totals the
    converters print, which are computed as the code computes them. *)

From Stdlib Require DecimalString.

(** Exceptions: those of the parser, and [KeyError] for a dictionary
    subscripted with a key it does not have. *)
Inductive exn : Type :=
| ExnIndexError
| ExnOutOfFuel
| ExnKeyError (key : str).

Inductive result (A : Type) : Type :=
| Ret (a : A)
| Raise (e : exn).

Arguments Ret {A} a.
Arguments Raise {A} e.

Definition of_outcome {A : Type} (o : outcome A) : result A :=
  match o with
  | Done a => Ret a
  | IndexError => Raise ExnIndexError
  | OutOfFuel => Raise ExnOutOfFuel
  end.

Definition rbind {A B : Type} (m : result A) (k : A -> result B) : result B :=
  match m with
  | Ret a => k a
  | Raise e => Raise e
  end.

(** [str(n)] for a non-negative integer, as an f-string formats it. *)
Definition str_of_nat (n : nat) : str :=
  list_ascii_of_string (DecimalString.NilEmpty.string_of_uint (Nat.to_uint n)).

(** A Python dictionary with string keys, in insertion order.  [d[k] = v]
    replaces the value of a key that is present, where it stands, and
    appends a key that is not. *)
Definition dict (V : Type) : Type := list (str * V).

Fixpoint dict_set {V : Type} (d : dict V) (k : str) (v : V) : dict V :=
  match d with
  | [] => [(k, v)]
  | (k', v') :: d' =>
      if str_eqb k' k then (k', v) :: d'
      else (k', v') :: dict_set d' k v
  end.

Fixpoint dict_get {V : Type} (d : dict V) (k : str) : option V :=
  match d with
  | [] => None
  | (k', v') :: d' => if str_eqb k' k then Some v' else dict_get d' k
  end.

Definition dict_keys {V : Type} (d : dict V) : list str := map fst d.

Definition dict_values {V : Type} (d : dict V) : list V := map snd d.

(** A file matched by the [glob]: [file_path.stem] and the text
    [read_text] returns. *)
Record SourceFile : Type := mkSourceFile {
  file_stem : str;
  file_text : str
}.

(** [len(all_data)] and [sum(len(d['results']) for d in all_data.values())],
    the two totals printed at the end. *)
Definition total_queries (all_data : dict ParsedResult) : nat :=
  length all_data.

Definition total_series (all_data : dict ParsedResult) : nat :=
  fold_left (fun acc d => acc + length (results_of d)) (dict_values all_data) 0.

Module MarkdownOutput.

(** [_escape_markdown] *)
Definition _escape_markdown (text : str) : str :=
  replace text (lit "|") (lit "\|").

(** [x or ""] *)
Definition or_empty (x : str) : str := if is_empty x then [] else x.

(** One pass through the body of the [for item in data["results"]] loop:
    the row appended to [lines].  Every record has the six keys, so no
    [get] falls back on its default. *)
Definition table_row (item : SeriesRecord) : str :=
  let sid := _escape_markdown (series_id item) in
  let ttl := _escape_markdown (title item) in
  let frq := _escape_markdown (frequency item) in
  let unt := _escape_markdown (units item) in
  let upd := _escape_markdown (last_updated item) in
  let nts := _escape_markdown (or_empty (notes item)) in
  lit "| " ++ sid ++ lit " | " ++ ttl ++ lit " | " ++ frq ++ lit " | "
    ++ unt ++ lit " | " ++ upd ++ lit " | " ++ nts ++ lit " |".

(** The list [lines] as it is when [_render_query_markdown] returns. *)
Definition rendered_lines (query : str) (result_count : nat)
    (results : list SeriesRecord) : list str :=
  let lines := [lit "## " ++ query;
                lit "Total results: " ++ str_of_nat result_count;
                []] in
  if is_empty results then
    lines ++ [lit "_No series found._"; []]
  else
    let lines :=
      lines ++ [lit "| ID | Title | Frequency | Units | Last Updated | Notes |";
                lit "| --- | --- | --- | --- | --- | --- |"] in
    let lines :=
      fold_left (fun acc item => acc ++ [table_row item]) results lines in
    lines ++ [[]].

(** [_render_query_markdown]: [data['result_count']] raises [KeyError] on
    a dictionary without that key. *)
Definition _render_query_markdown (query : str) (data : ParsedResult)
    : result str :=
  match result_count_of data with
  | None => Raise (ExnKeyError (lit "result_count"))
  | Some n => Ret (join [newline] (rendered_lines query n (results_of data)))
  end.

(** What [convert_all_search_results] has written when it returns: the
    text of the consolidated file, and the text of the [.md] file it put
    next to each source file, named here by the source file's stem.
    [all_data] is the dictionary the totals are computed from. *)
Record Written : Type := mkWritten {
  consolidated : str;
  individual : list (str * str);
  all_data : dict ParsedResult
}.

(** The state of the [for txt_file in txt_files] loop. *)
Record LoopState : Type := mkLoopState {
  consolidated_sections : list str;
  loop_all_data : dict ParsedResult;
  loop_individual : list (str * str)
}.

Definition loop_body (individual_markdown : bool) (st : LoopState)
    (txt_file : SourceFile) : result LoopState :=
  rbind (of_outcome
           (ConvertSearchResultsMarkdown.parse_search_result_file
              (file_stem txt_file) (file_text txt_file)))
    (fun data =>
       let query := query_of data in
       let all_data' := dict_set (loop_all_data st) query data in
       rbind (_render_query_markdown query data)
         (fun section =>
            let sections' := consolidated_sections st ++ [section] in
            if individual_markdown then
              rbind (_render_query_markdown query data)
                (fun section_again =>
                   let md_content :=
                     join [newline]
                       [lit "# FRED Search Results: " ++ query; [];
                        section_again] in
                   Ret (mkLoopState sections' all_data'
                          (loop_individual st
                             ++ [(file_stem txt_file, md_content)])))
            else Ret (mkLoopState sections' all_data' (loop_individual st)))).

Fixpoint loop (individual_markdown : bool) (txt_files : list SourceFile)
    (st : LoopState) : result LoopState :=
  match txt_files with
  | [] => Ret st
  | txt_file :: rest =>
      rbind (loop_body individual_markdown st txt_file)
        (fun st' => loop individual_markdown rest st')
  end.

(** [convert_all_search_results]: [None] when it returns before the loop,
    having written nothing. *)
Definition convert_all_search_results (input_dir_exists : bool)
    (txt_files : list SourceFile) (individual_markdown : bool)
    : result (option Written) :=
  if negb input_dir_exists then Ret None
  else if is_empty txt_files then Ret None
  else
    rbind (loop individual_markdown txt_files
             (mkLoopState [lit "# FRED Search Results"] [] []))
      (fun st =>
         Ret (Some (mkWritten (join [newline] (consolidated_sections st))
                      (loop_individual st) (loop_all_data st)))).

End MarkdownOutput.

Module JsonOutput.

(** What [convert_all_search_results] of the JSON converter has handed to
    [json.dumps] when it returns: the dictionary of the consolidated file,
    and the dictionary of the [.json] file it put next to each source
    file.  The serialisation itself is outside the model. *)
Record Written : Type := mkWritten {
  consolidated : dict ParsedResult;
  individual : list (str * ParsedResult)
}.

Record LoopState : Type := mkLoopState {
  loop_all_data : dict ParsedResult;
  loop_individual : list (str * ParsedResult)
}.

Definition loop_body (individual_json : bool) (st : LoopState)
    (txt_file : SourceFile) : result LoopState :=
  rbind (of_outcome
           (ConvertSearchResults.parse_search_result_file
              (file_stem txt_file) (file_text txt_file)))
    (fun data =>
       let query := query_of data in
       let all_data' := dict_set (loop_all_data st) query data in
       if individual_json then
         Ret (mkLoopState all_data'
                (loop_individual st ++ [(file_stem txt_file, data)]))
       else Ret (mkLoopState all_data' (loop_individual st))).

Fixpoint loop (individual_json : bool) (txt_files : list SourceFile)
    (st : LoopState) : result LoopState :=
  match txt_files with
  | [] => Ret st
  | txt_file :: rest =>
      rbind (loop_body individual_json st txt_file)
        (fun st' => loop individual_json rest st')
  end.

Definition convert_all_search_results (input_dir_exists : bool)
    (txt_files : list SourceFile) (individual_json : bool)
    : result (option Written) :=
  if negb input_dir_exists then Ret None
  else if is_empty txt_files then Ret None
  else
    rbind (loop individual_json txt_files (mkLoopState [] []))
      (fun st =>
         Ret (Some (mkWritten (loop_all_data st) (loop_individual st)))).

End JsonOutput.

(** Pipes that are not right after a backslash; [after_backslash] says
    whether the character before the string is a backslash. *)
Fixpoint bare_pipes_from (after_backslash : bool) (s : str) : nat :=
  match s with
  | [] => 0
  | c :: s' =>
      (if Ascii.eqb c "|"%char && negb after_backslash then 1 else 0)
      + bare_pipes_from (Ascii.eqb c "\"%char) s'
  end.

Definition bare_pipes (s : str) : nat := bare_pipes_from false s.

(** The parsed dictionary of a source file, for a file the parser accepts;
    the parser accepts every file. *)
Definition parsed (f : SourceFile) : ParsedResult :=
  match parse_search_result_file (file_stem f) (file_text f) with
  | Done p => p
  | IndexError => WithoutCount [] []
  | OutOfFuel => WithoutCount [] []
  end.

Definition label (f : SourceFile) : str := query_of (parsed f).

(** The section the Markdown converter renders for a source file, and the
    dictionary both converters collect from a list of source files. *)
Definition section_text (f : SourceFile) : str :=
  join [newline]
    (MarkdownOutput.rendered_lines (label f)
       (length (results_of (parsed f))) (results_of (parsed f))).

Definition collect (txt_files : list SourceFile) (d : dict ParsedResult)
    : dict ParsedResult :=
  fold_left (fun acc f => dict_set acc (label f) (parsed f)) txt_files d.

Definition has_label (q : str) (f : SourceFile) : bool :=
  str_eqb (label f) q.

(** The text of the [.md] file written next to a source file. *)
Definition individual_text (f : SourceFile) : str :=
  join [newline] [lit "# FRED Search Results: " ++ label f; [];
                  section_text f].

(** ** What a block of field lines means

    For a record-start line followed by lines that each carry one of the
    four prefixes: the value of a field is the text of the last line with
    its prefix, and the notes are the texts of the notes lines other than
    the sentinel, in order. *)

Definition field_prefix (f : field) : str :=
  match f with
  | Units => lit "Units: "
  | Frequency => lit "Frequency: "
  | LastUpdated => lit "Last Updated: "
  | Notes => lit "Notes: "
  end.

Definition field_text (f : field) (raw : str) : str :=
  strip (replace (strip raw) (field_prefix f) []).

Definition field_eqb (f g : field) : bool :=
  match f, g with
  | Units, Units => true
  | Frequency, Frequency => true
  | LastUpdated, LastUpdated => true
  | Notes, Notes => true
  | _, _ => false
  end.

Definition is_field (f : field) (raw : str) : bool :=
  match field_of raw with
  | Some g => field_eqb f g
  | None => false
  end.

Definition last_value (f : field) (fields : list str) (default : str) : str :=
  match find (is_field f) (rev fields) with
  | Some l => field_text f l
  | None => default
  end.

Definition note_of (raw : str) : list str :=
  if is_field Notes raw && negb (str_eqb (field_text Notes raw) sentinel)
  then [field_text Notes raw] else [].

Definition note_texts (fields : list str) : list str :=
  flat_map note_of fields.

Definition block_record (sid ttl : str) (fields : list str) : SeriesRecord :=
  mkSeriesRecord sid ttl
    (last_value Frequency fields [])
    (last_value Units fields [])
    (last_value LastUpdated fields [])
    (strip (join (lit " ") (note_texts fields))).

(** What may follow the block: the end of the document, or a line at
    which the lookahead stops. *)
Definition block_ends (post : list str) : Prop :=
  match post with
  | [] => True
  | l :: rest => stops l (hd_error rest) = true
  end.

(** Where a piece of [notes_lines] comes from: it is the text of a
    [Notes: ] line of the document, and then it is not the sentinel, or it
    is the trimmed text of a non-blank line of the document that carries
    no known prefix. *)
Definition notes_piece (lines : list str) (x : str) : Prop :=
  exists raw,
    In raw lines /\
    ((has_notes_prefix raw = true /\
      x = strip (replace (strip raw) (lit "Notes: ") []) /\
      x <> sentinel)
     \/ (is_blank raw = false /\ has_known_prefix raw = false /\
         x = strip raw)).

Definition doc_sentinel_repeated : list str :=
  [lit "1. ABC - Title"; lit "Notes: No description available";
   lit "No description available"].

Definition doc_sentinel_then_text : list str :=
  [lit "1. ABC - Title"; lit "Notes: No description available";
   lit "some other text"].
Lemma nth_error_in_range (A : Type) (l : list A) (k : nat) :
  k < length l -> exists x, nth_error l k = Some x.
Proof.
  intros H. destruct (nth_error l k) eqn:E; eauto.
  apply nth_error_None in E. lia.
Qed.

Lemma lookahead_body_step (lines : list str) (i j : nat) (raw : str)
    (md : Metadata) (nl : list str) :
  nth_error lines j = Some raw ->
  lookahead_body lines i j md nl =
  Done (step raw (nth_error lines (j + 1)) (previous_line lines i j) md nl).
Proof.
  intros Hj.
  assert (Hlt : j < length lines) by (apply nth_error_Some; congruence).
  unfold lookahead_body, step, stops, absorb, previous_line, getitem.
  rewrite Hj. cbn [bind].
  destruct (is_empty (strip raw)) eqn:Eb.
  - destruct (j + 1 <? length lines) eqn:El.
    + apply Nat.ltb_lt in El.
      destruct (nth_error_in_range _ lines _ El) as [a Ha]. rewrite Ha. cbn [bind].
      destruct (match_number_dot (strip a)); reflexivity.
    + apply Nat.ltb_ge in El.
      assert (Hn : nth_error lines (j + 1) = None) by (apply nth_error_None; lia).
      rewrite Hn. reflexivity.
  - destruct (match_number_dot (strip raw)); [reflexivity|].
    destruct (startswith (strip raw) (lit "Units: ")); [reflexivity|].
    destruct (startswith (strip raw) (lit "Frequency: ")); [reflexivity|].
    destruct (startswith (strip raw) (lit "Last Updated: ")); [reflexivity|].
    destruct (startswith (strip raw) (lit "Notes: ")).
    { destruct (negb (str_eqb _ sentinel)); reflexivity. }
    destruct (negb (is_empty nl)); [reflexivity|].
    destruct (i + 1 <? j) eqn:Ei; [|reflexivity].
    apply Nat.ltb_lt in Ei.
    assert (Hp : j - 1 < length lines) by lia.
    destruct (nth_error_in_range _ lines _ Hp) as [b Hb]. rewrite Hb. cbn [bind].
    destruct (contains (lit "Notes:") b); reflexivity.
Qed.

(** ** Proof rules for the two loops

    Both loops finish on the fuel they are given, never raise, and
    preserve every invariant their bodies preserve. *)

Section LookaheadRule.

Variable lines : list str.
Variable i : nat.
Variable Inv : nat -> Metadata -> list str -> Prop.

Hypothesis Inv_step :
  forall k raw md nl md' nl',
    nth_error lines k = Some raw ->
    Inv k md nl ->
    step raw (nth_error lines (k + 1)) (previous_line lines i k) md nl
      = Some (md', nl') ->
    Inv (k + 1) md' nl'.

Lemma lookahead_rule (fuel j : nat) (md : Metadata) (nl : list str) :
  j <= length lines ->
  length lines - j < fuel ->
  Inv j md nl ->
  exists j' md' nl',
    lookahead fuel lines i j md nl = Done (j', md', nl') /\
    j <= j' <= length lines /\
    Inv j' md' nl' /\
    (forall raw, nth_error lines j' = Some raw ->
                 stops raw (nth_error lines (j' + 1)) = true).
Proof.
  revert j md nl.
  induction fuel as [|fuel IH]; intros j md nl Hle Hfuel HI; [lia|].
  cbn [lookahead].
  destruct (j <? length lines) eqn:Ej.
  - apply Nat.ltb_lt in Ej.
    destruct (nth_error_in_range _ lines _ Ej) as [raw Hraw].
    rewrite (lookahead_body_step lines i j raw md nl Hraw). cbn [bind].
    destruct (step raw (nth_error lines (j + 1)) (previous_line lines i j) md nl)
      as [[md1 nl1]|] eqn:Es.
    + destruct (IH (j + 1) md1 nl1) as (j' & md' & nl' & Hrun & Hb & HI' & Hs);
        [lia | lia | eapply Inv_step; eauto |].
      exists j', md', nl'. repeat split; auto; lia.
    + exists j, md, nl. repeat split; auto; try lia.
      intros raw' Hraw'. rewrite Hraw in Hraw'. injection Hraw' as <-.
      unfold step in Es. destruct (stops raw (nth_error lines (j + 1))); congruence.
  - apply Nat.ltb_ge in Ej.
    exists j, md, nl. repeat split; auto; try lia.
    intros raw Hraw.
    assert (j < length lines) by (apply nth_error_Some; congruence). lia.
Qed.

End LookaheadRule.

Lemma scan_body_total (lines : list str) (k : nat) (r : list SeriesRecord) :
  k < length lines ->
  exists k' r', scan_body lines k r = Done (k', r') /\ k < k' <= length lines.
Proof.
  intros Hk.
  destruct (nth_error_in_range _ lines _ Hk) as [raw Hraw].
  unfold scan_body, getitem. rewrite Hraw. cbn [bind].
  destruct (is_empty (strip raw) || startswith_any (strip raw) header_prefixes).
  { eexists _, _. split; [reflexivity | lia]. }
  destruct (match_series (strip raw)) as [[g1 g2]|].
  - destruct (lookahead_rule lines k (fun _ _ _ => True) (fun _ _ _ _ _ _ _ _ _ => I)
                (length lines) (k + 1) empty_metadata [])
      as (j' & md' & nl' & Hrun & Hb & _ & _); [lia | lia | exact I |].
    rewrite Hrun. cbn [bind].
    eexists _, _. split; [reflexivity | lia].
  - eexists _, _. split; [reflexivity | lia].
Qed.

Section ScanRule.

Variable lines : list str.
Variable Inv : nat -> list SeriesRecord -> Prop.

Hypothesis Inv_body :
  forall k r k' r',
    k < length lines ->
    Inv k r ->
    scan_body lines k r = Done (k', r') ->
    Inv k' r'.

Lemma scan_rule (fuel i : nat) (r : list SeriesRecord) :
  i <= length lines ->
  length lines - i < fuel ->
  Inv i r ->
  exists r', scan fuel lines i r = Done r' /\ Inv (length lines) r'.
Proof.
  revert i r.
  induction fuel as [|fuel IH]; intros i r Hle Hfuel HI; [lia|].
  cbn [scan].
  destruct (i <? length lines) eqn:Ei.
  - apply Nat.ltb_lt in Ei.
    destruct (scan_body_total lines i r Ei) as (k' & r1 & Hb & Hk).
    rewrite Hb. cbn [bind].
    apply IH; [lia | lia | eapply Inv_body; eauto].
  - apply Nat.ltb_ge in Ei.
    assert (i = length lines) by lia. subst i.
    exists r. split; auto.
Qed.

End ScanRule.

(** ** Facts about the patterns *)

Lemma match_series_number_dot (s : str) (g : str * str) :
  match_series s = Some g -> match_number_dot s = true.
Proof.
  unfold match_series, match_number_dot.
  destruct (span isdigit s) as [ds r1].
  destruct (is_empty ds); [discriminate|].
  unfold lit; cbn [list_ascii_of_string].
  destruct r1 as [|c1 r1]; [discriminate|].
  cbn [startswith negb andb].
  destruct (Ascii.eqb "."%char c1); [reflexivity | discriminate].
Qed.

Lemma match_series_skipped (s : str) :
  is_empty s || startswith_any s header_prefixes = true ->
  match_series s = None.
Proof.
  destruct s as [|c s]; [reflexivity|].
  cbn [is_empty orb].
  unfold startswith_any, header_prefixes, lit.
  cbn [list_ascii_of_string existsb startswith].
  intros H.
  assert (Hc : c = "F"%char \/ c = "Q"%char \/ c = "T"%char).
  { repeat (apply orb_true_iff in H; destruct H as [H|H]);
      try discriminate;
      apply andb_true_iff in H; destruct H as [H _];
      apply Ascii.eqb_eq in H; subst; auto. }
  destruct Hc as [-> | [-> | ->]]; reflexivity.
Qed.

Lemma match_number_dot_blank (raw : str) :
  is_empty (strip raw) = true -> match_number_dot (strip raw) = false.
Proof.
  destruct (strip raw); [reflexivity | discriminate].
Qed.

(** A line the inner loop goes past does not start a record. *)
Lemma passed_not_series (raw : str) (after : option str) :
  stops raw after = false -> match_series (strip raw) = None.
Proof.
  unfold stops. intros H.
  destruct (match_series (strip raw)) as [g|] eqn:E; [|reflexivity].
  apply match_series_number_dot in E.
  destruct (is_empty (strip raw)) eqn:Eb.
  - rewrite match_number_dot_blank in E by assumption. discriminate.
  - congruence.
Qed.

(** ** The outer loop builds one record per matching line *)

Lemma scan_body_record_at (lines : list str) (k : nat)
    (r : list SeriesRecord) :
  k < length lines ->
  exists k',
    scan_body lines k r = Done (k', r ++ record_at lines k) /\
    k < k' <= length lines /\
    (forall m, k < m < k' -> record_at lines m = []).
Proof.
  intros Hk.
  destruct (nth_error_in_range _ lines _ Hk) as [raw Hraw].
  unfold scan_body, record_at, getitem. rewrite Hraw. cbn [bind].
  destruct (is_empty (strip raw) || startswith_any (strip raw) header_prefixes)
    eqn:Eskip.
  { rewrite (match_series_skipped _ Eskip), app_nil_r.
    exists (k + 1). repeat split; lia. }
  destruct (match_series (strip raw)) as [[g1 g2]|] eqn:Em.
  - set (Inv := fun (m : nat) (_ : Metadata) (_ : list str) =>
                  forall q raw_q, k < q < m ->
                    nth_error lines q = Some raw_q ->
                    match_series (strip raw_q) = None).
    assert (Hstep : forall q raw_q md nl md1 nl1,
               nth_error lines q = Some raw_q -> Inv q md nl ->
               step raw_q (nth_error lines (q + 1)) (previous_line lines k q) md nl
                 = Some (md1, nl1) ->
               Inv (q + 1) md1 nl1).
    { intros q raw_q md nl md1 nl1 Hq Hinv Hstep p raw_p Hp Hrp.
      destruct (Nat.eq_dec p q) as [->|Hne].
      * rewrite Hq in Hrp. injection Hrp as <-.
        unfold step in Hstep.
        destruct (stops raw_q (nth_error lines (q + 1))) eqn:Es; [discriminate|].
        eapply passed_not_series; eauto.
      * apply (Hinv p raw_p); [lia | assumption]. }
    destruct (lookahead_rule lines k Inv Hstep (length lines) (k + 1)
                empty_metadata [])
      as (j' & md' & nl' & Hrun & Hb & Hinv & _);
      [lia | lia | intros q raw_q Hq; lia |].
    rewrite Hrun. cbn [bind].
    { exists j'. repeat split; try lia.
      intros m Hm.
      destruct (nth_error lines m) as [raw_m|] eqn:Erm; [|reflexivity].
      rewrite (Hinv m raw_m Hm Erm). reflexivity. }
  - rewrite app_nil_r. exists (k + 1). repeat split; lia.
Qed.

Lemma flat_map_seq_extend (f : nat -> list SeriesRecord) (k k' : nat) :
  k < k' ->
  (forall m, k < m < k' -> f m = []) ->
  flat_map f (seq 0 k') = flat_map f (seq 0 k) ++ f k.
Proof.
  intros Hlt Hz.
  replace k' with (k + (1 + (k' - k - 1))) by lia.
  rewrite seq_app, flat_map_app. f_equal.
  rewrite seq_app, flat_map_app. cbn [seq flat_map Nat.add].
  rewrite app_nil_r.
  assert (Hrest : forall n a, (forall m, a <= m < a + n -> f m = []) ->
                              flat_map f (seq a n) = []).
  { induction n as [|n IH]; intros a Ha; [reflexivity|].
    cbn [seq flat_map]. rewrite (Ha a) by lia. apply IH.
    intros m Hm. apply Ha. lia. }
  rewrite Hrest; [apply app_nil_r|].
  intros m Hm. apply Hz. lia.
Qed.

Lemma scan_records (lines : list str) (fuel : nat) :
  length lines < fuel ->
  scan fuel lines 0 [] = Done (records_of lines).
Proof.
  intros Hfuel.
  destruct (scan_rule lines
              (fun i r => r = flat_map (record_at lines) (seq 0 i)))
    with (fuel := fuel) (i := 0) (r := @nil SeriesRecord)
    as (r' & Hrun & Hr'); try lia; try reflexivity.
  - intros k r k' r' Hk -> Hbody.
    destruct (scan_body_record_at lines k
                (flat_map (record_at lines) (seq 0 k)) Hk)
      as (k1 & Hb1 & Hlt & Hz).
    rewrite Hb1 in Hbody. injection Hbody as <- <-.
    symmetry. apply flat_map_seq_extend; [lia | assumption].
  - rewrite Hrun, Hr'. reflexivity.
Qed.

Lemma parse_lines_records (lines : list str) (stem : str) :
  lines <> [] ->
  parse_lines lines stem =
  Done (WithCount (find_query (firstn 10 lines) stem)
          (length (records_of lines)) (records_of lines)).
Proof.
  intros Hne. unfold parse_lines.
  destruct lines as [|l ls]; [congruence|].
  cbn [is_empty]. rewrite scan_records by lia. reflexivity.
Qed.

Lemma split_nonempty (s : str) (sep : ascii) : split s sep <> [].
Proof.
  destruct s as [|c s]; cbn [split]; [discriminate|].
  destruct (Ascii.eqb c sep); [discriminate|].
  destruct (split s sep); discriminate.
Qed.

Lemma record_at_length (lines : list str) (k : nat) :
  length (record_at lines k) <= 1.
Proof.
  unfold record_at.
  destruct (nth_error lines k) as [raw|]; [|cbn; lia].
  destruct (match_series (strip raw)) as [[g1 g2]|]; [|cbn; lia].
  destruct (lookahead _ _ _ _ _ _) as [[[j md] nl]| |]; cbn; lia.
Qed.

Lemma flat_map_length_le (f : nat -> list SeriesRecord) (l : list nat) :
  (forall k, length (f k) <= 1) ->
  length (flat_map f l) <= length l.
Proof.
  intros Hf. induction l as [|a l IH]; cbn [flat_map length]; [lia|].
  rewrite length_app. specialize (Hf a). lia.
Qed.

Lemma records_of_length (lines : list str) :
  length (records_of lines) <= length lines.
Proof.
  unfold records_of.
  pose proof (flat_map_length_le (record_at lines) (seq 0 (length lines))
                (record_at_length lines)) as H.
  rewrite length_seq in H. exact H.
Qed.

Lemma records_of_no_match (lines : list str) :
  (forall raw, In raw lines -> match_series (strip raw) = None) ->
  records_of lines = [].
Proof.
  intros H. unfold records_of.
  induction (seq 0 (length lines)) as [|k l IH]; [reflexivity|].
  cbn [flat_map]. rewrite IH, app_nil_r.
  unfold record_at.
  destruct (nth_error lines k) as [raw|] eqn:E; [|reflexivity].
  rewrite (H raw (nth_error_In _ _ E)). reflexivity.
Qed.

(** ** Totality and the shape of the result *)

(** C9: for every input text the routine returns a dictionary that has
    the key [result_count], and its value is the length of [results]; the
    early return, which builds a dictionary without that key, is never
    taken, because [split] never returns the empty list. *)
Theorem result_count_always_present (stem content : str) :
  exists p,
    parse_search_result_file stem content = Done p /\
    result_count_of p = Some (length (results_of p)).
Proof.
  unfold parse_search_result_file.
  rewrite parse_lines_records by apply split_nonempty.
  eexists. split; reflexivity.
Qed.

(** C5: the routine is total.  For every list of lines and every fallback
    label it returns a result, neither raising nor running out of fuel, and
    with at most one record per line; so does the routine on every text;
    and a document none of whose lines matches the series pattern yields an
    empty list of records. *)
Theorem parser_total :
  (forall lines stem,
      exists p, parse_lines lines stem = Done p /\
                length (results_of p) <= length lines) /\
  (forall stem content,
      exists p, parse_search_result_file stem content = Done p) /\
  (forall lines stem,
      (forall raw, In raw lines -> match_series (strip raw) = None) ->
      exists p, parse_lines lines stem = Done p /\ results_of p = []).
Proof.
  split; [|split].
  - intros lines stem. destruct lines as [|l ls] eqn:E.
    + eexists. split; [reflexivity | cbn; lia].
    + rewrite parse_lines_records by discriminate.
      eexists. split; [reflexivity|]. cbn [results_of].
      apply records_of_length.
  - intros stem content. unfold parse_search_result_file.
    rewrite parse_lines_records by apply split_nonempty.
    eexists. reflexivity.
  - intros lines stem H. destruct lines as [|l ls] eqn:E.
    + eexists. split; reflexivity.
    + rewrite parse_lines_records by discriminate.
      eexists. split; [reflexivity|]. cbn [results_of].
      apply records_of_no_match. assumption.
Qed.

Lemma parser_total_witness :
  exists p,
    parse_lines [lit "FRED Series Search Results"; lit "Query: foo"]
      (lit "fallback") = Done p /\
    results_of p = [].
Proof.
  apply (proj2 (proj2 parser_total)).
  intros raw [<- | [<- | []]]; vm_compute; reflexivity.
Defined.

(** ** The query label *)


Lemma find_query_fallback (lines : list str) (stem : str) :
  (forall l, In l lines -> startswith l (lit "Query: ") = false) ->
  find_query lines stem = stem.
Proof.
  intros H. induction lines as [|l ls IH]; [reflexivity|].
  cbn [find_query]. rewrite (H l (or_introl eq_refl)).
  apply IH. intros l' Hl'. apply H. right. exact Hl'.
Qed.

(** C4: on the one-line text [Query: a Query: b] the routine returns the
    label [a b]: [replace] removes the second occurrence of the prefix as
    well, while the text strictly after the prefix is [a Query: b]. *)
Theorem query_label_loses_inner_prefix :
  parse_search_result_file (lit "stem") doc_two_queries
    = Done (WithCount (lit "a b") 0 []) /\
  strip (Spec.text_after_prefix doc_two_queries (lit "Query: "))
    = lit "a Query: b".
Proof.
  split; vm_compute; reflexivity.
Qed.

(** ** The inner loop *)

Lemma has_known_prefix_false (raw : str) :
  has_known_prefix raw = false ->
  startswith (strip raw) (lit "Units: ") = false /\
  startswith (strip raw) (lit "Frequency: ") = false /\
  startswith (strip raw) (lit "Last Updated: ") = false /\
  startswith (strip raw) (lit "Notes: ") = false.
Proof.
  unfold has_known_prefix, has_field_prefix, has_notes_prefix.
  intros H.
  repeat (apply orb_false_iff in H; destruct H as [H ?]).
  auto.
Qed.

Lemma absorb_continuation (lines : list str) (i j : nat) (raw : str)
    (md : Metadata) (nl : list str) :
  is_blank raw = false ->
  has_known_prefix raw = false ->
  absorb raw (previous_line lines i j) md nl =
  (md, if absorbs_continuation lines i j nl then nl ++ [strip raw] else nl).
Proof.
  intros Hb Hp.
  destruct (has_known_prefix_false raw Hp) as (Hu & Hf & Hl & Hn).
  unfold absorb, absorbs_continuation, previous_line.
  unfold is_blank in Hb. rewrite Hb, Hu, Hf, Hl, Hn.
  destruct (negb (is_empty nl)); [reflexivity|].
  cbn [orb].
  destruct (i + 1 <? j); [|reflexivity].
  cbn [andb].
  destruct (nth_error lines (j - 1)) as [b|]; [|reflexivity].
  destruct (contains (lit "Notes:") b); reflexivity.
Qed.

(** C3, as amended: a line of the inner loop that is not blank, carries no
    known prefix and is not a stop line is appended to [notes_lines] exactly
    when [notes_lines] is non-empty, or [j > i + 1] and the raw line at
    [j - 1] contains ["Notes:"]; nothing else in the state changes. *)
Theorem continuation_absorbed_iff (lines : list str) (i j : nat) (raw : str)
    (md : Metadata) (nl : list str) :
  nth_error lines j = Some raw ->
  is_blank raw = false ->
  has_known_prefix raw = false ->
  stops raw (nth_error lines (j + 1)) = false ->
  lookahead_body lines i j md nl =
  Done (Some (md, if absorbs_continuation lines i j nl
                  then nl ++ [strip raw] else nl)).
Proof.
  intros Hj Hb Hp Hs.
  rewrite (lookahead_body_step lines i j raw md nl Hj).
  unfold step. rewrite Hs.
  rewrite absorb_continuation by assumption. reflexivity.
Qed.

Lemma continuation_absorbed_iff_witness :
  lookahead_body
    [lit "1. ABC - Title"; lit "Notes: Part one"; lit "continuation text"]
    0 2 empty_metadata [lit "Part one"]
  = Done (Some (empty_metadata, [lit "Part one"; lit "continuation text"])).
Proof.
  apply (continuation_absorbed_iff
           [lit "1. ABC - Title"; lit "Notes: Part one"; lit "continuation text"]
           0 2 (lit "continuation text") empty_metadata [lit "Part one"]);
    reflexivity.
Defined.

(** C3, as stated, fails: right after a record-start line whose title
    contains ["Notes:"], a line without a known prefix is not appended,
    although the raw line before it contains ["Notes:"]. *)
Lemma continuation_rule_counterexample :
  nth_error doc_title_with_notes 1 = Some (lit "stray text") /\
  is_blank (lit "stray text") = false /\
  has_known_prefix (lit "stray text") = false /\
  stops (lit "stray text") (nth_error doc_title_with_notes 2) = false /\
  Spec.absorbs_continuation doc_title_with_notes 1 [] = true /\
  lookahead_body doc_title_with_notes 0 1 empty_metadata []
    = Done (Some (empty_metadata, [])) /\
  parse_lines doc_title_with_notes (lit "stem")
    = Done (WithCount (lit "stem") 1
              [mkSeriesRecord (lit "ABC") (lit "Notes: see below") [] [] [] []]).
Proof.
  repeat split; vm_compute; reflexivity.
Qed.

Lemma lookahead_first_stop (lines : list str) (i : nat)
    (raw : str) (g1 g2 : str) (results : list SeriesRecord) :
  nth_error lines i = Some raw ->
  match_series (strip raw) = Some (g1, g2) ->
  exists j' md nl,
    lookahead (length lines) lines i (i + 1) empty_metadata []
      = Done (j', md, nl) /\
    scan_body lines i results
      = Done (j', results ++ [finish_record (strip g1) (strip g2) md nl]) /\
    i < j' <= length lines /\
    (forall k raw_k, i < k < j' -> nth_error lines k = Some raw_k ->
                     stops raw_k (nth_error lines (k + 1)) = false) /\
    (forall raw', nth_error lines j' = Some raw' ->
                  stops raw' (nth_error lines (j' + 1)) = true).
Proof.
  intros Hi Hm.
  assert (Hlt : i < length lines) by (apply nth_error_Some; congruence).
  set (Inv := fun (m : nat) (_ : Metadata) (_ : list str) =>
                forall k raw_k, i < k < m ->
                  nth_error lines k = Some raw_k ->
                  stops raw_k (nth_error lines (k + 1)) = false).
  assert (Hstep : forall q raw_q md nl md1 nl1,
             nth_error lines q = Some raw_q -> Inv q md nl ->
             step raw_q (nth_error lines (q + 1)) (previous_line lines i q) md nl
               = Some (md1, nl1) ->
             Inv (q + 1) md1 nl1).
  { intros q raw_q md nl md1 nl1 Hq Hinv Hstep p raw_p Hp Hrp.
    destruct (Nat.eq_dec p q) as [->|Hne].
    - rewrite Hq in Hrp. injection Hrp as <-.
      unfold step in Hstep.
      destruct (stops raw_q (nth_error lines (q + 1))); [discriminate | reflexivity].
    - apply (Hinv p raw_p); [lia | assumption]. }
  destruct (lookahead_rule lines i Inv Hstep (length lines) (i + 1)
              empty_metadata [])
    as (j' & md & nl & Hrun & Hb & Hinv & Hstop);
    [lia | lia | intros q raw_q Hq; lia |].
  exists j', md, nl. repeat split; try assumption; try lia.
  unfold scan_body, getitem. rewrite Hi. cbn [bind].
  destruct (is_empty (strip raw) || startswith_any (strip raw) header_prefixes)
    eqn:Eskip.
  { rewrite (match_series_skipped _ Eskip) in Hm. discriminate. }
  rewrite Hm, Hrun. reflexivity.
Qed.

(** C1, as amended: the lookahead of the record that starts at line [i]
    ends at the first later index [j'] at which the loop stops, or at the
    end of the document.  The loop stops at a non-blank line whose trimmed
    text begins with digits and a dot, and at a blank line whose next line
    does; no other line stops it.  The line at [j'] is not consumed: the
    outer loop goes on at [j']. *)
Theorem lookahead_ends_at_first_stop (lines : list str) (i : nat)
    (raw : str) (g1 g2 : str) (results : list SeriesRecord) :
  nth_error lines i = Some raw ->
  match_series (strip raw) = Some (g1, g2) ->
  exists j' md nl,
    lookahead (length lines) lines i (i + 1) empty_metadata []
      = Done (j', md, nl) /\
    scan_body lines i results
      = Done (j', results ++ [finish_record (strip g1) (strip g2) md nl]) /\
    i < j' <= length lines /\
    (forall k raw_k, i < k < j' -> nth_error lines k = Some raw_k ->
                     stops raw_k (nth_error lines (k + 1)) = false) /\
    (forall raw', nth_error lines j' = Some raw' ->
                  stops raw' (nth_error lines (j' + 1)) = true).
Proof.
  exact (lookahead_first_stop lines i raw g1 g2 results).
Qed.

Lemma lookahead_ends_at_first_stop_witness :
  exists j' md nl,
    lookahead 3 doc_number_line 0 1 empty_metadata [] = Done (j', md, nl) /\
    scan_body doc_number_line 0 []
      = Done (j', [] ++ [finish_record (strip (lit "ABC")) (strip (lit "First"))
                           md nl]) /\
    0 < j' <= 3 /\
    (forall k raw_k, 0 < k < j' -> nth_error doc_number_line k = Some raw_k ->
                     stops raw_k (nth_error doc_number_line (k + 1)) = false) /\
    (forall raw', nth_error doc_number_line j' = Some raw' ->
                  stops raw' (nth_error doc_number_line (j' + 1)) = true).
Proof.
  apply (lookahead_ends_at_first_stop doc_number_line 0
           (lit "1. ABC - First") (lit "ABC") (lit "First") []);
    reflexivity.
Defined.

(** C1, as stated, fails: the line [3.14 is pi] is not blank and does not
    match the record-start pattern, neither as the code has it nor as the
    specification words it, yet the lookahead of the record before it
    stops there, and the units line after it is lost. *)
Lemma lookahead_stop_counterexample :
  lookahead 3 doc_number_line 0 1 empty_metadata []
    = Done (1, empty_metadata, []) /\
  nth_error doc_number_line 1 = Some (lit "3.14 is pi") /\
  is_blank (lit "3.14 is pi") = false /\
  match_series (strip (lit "3.14 is pi")) = None /\
  Spec.match_record_start (strip (lit "3.14 is pi")) = None /\
  parse_lines doc_number_line (lit "stem")
    = Done (WithCount (lit "stem") 1
              [mkSeriesRecord (lit "ABC") (lit "First") [] [] [] []]).
Proof.
  repeat split; vm_compute; reflexivity.
Qed.

(** ** Trimming *)

Lemma lstrip_head (s : str) (c : ascii) (r : str) :
  lstrip s = c :: r -> isspace c = false.
Proof.
  induction s as [|a s IH]; cbn [lstrip]; [discriminate|].
  destruct (isspace a) eqn:Ea; [exact IH|].
  intros H. injection H as <- _. exact Ea.
Qed.

Lemma lstrip_suffix (s : str) : exists p, s = p ++ lstrip s.
Proof.
  induction s as [|a s [p IH]]; [exists []; reflexivity|].
  cbn [lstrip]. destruct (isspace a).
  - exists (a :: p). cbn [app]. f_equal. exact IH.
  - exists []. reflexivity.
Qed.

Lemma strip_trimmed (s : str) : trimmed (strip s) = true.
Proof.
  unfold trimmed, strip, rstrip.
  rewrite rev_involutive.
  destruct (lstrip_suffix (rev (lstrip s))) as [p Hp].
  remember (lstrip (rev (lstrip s))) as u eqn:Eu.
  apply andb_true_iff. split.
  - destruct (rev u) as [|c r] eqn:Er; [reflexivity|].
    assert (Ht : lstrip s = (c :: r) ++ rev p).
    { rewrite <- Er, <- rev_app_distr, <- Hp, rev_involutive. reflexivity. }
    cbn [app] in Ht. rewrite (lstrip_head _ _ _ Ht). reflexivity.
  - destruct u as [|c r]; [reflexivity|].
    symmetry in Eu. rewrite (lstrip_head _ _ _ Eu). reflexivity.
Qed.

Lemma trimmed_strip (s : str) : trimmed s = true -> strip s = s.
Proof.
  unfold trimmed, strip, rstrip. intros H.
  apply andb_true_iff in H. destruct H as [Hh Hl].
  assert (E1 : lstrip s = s).
  { destruct s as [|c s]; [reflexivity|]. cbn [lstrip].
    destruct (isspace c); [discriminate | reflexivity]. }
  rewrite E1.
  assert (E2 : lstrip (rev s) = rev s).
  { destruct (rev s) as [|c r]; [reflexivity|]. cbn [lstrip].
    destruct (isspace c); [discriminate | reflexivity]. }
  rewrite E2. apply rev_involutive.
Qed.

Lemma is_id_char_not_space (c : ascii) :
  is_id_char c = true -> isspace c = false.
Proof.
  destruct c as [[] [] [] [] [] [] [] []]; vm_compute; congruence.
Qed.

Lemma id_chars_trimmed (g : str) :
  forallb is_id_char g = true -> trimmed g = true.
Proof.
  intros H. rewrite forallb_forall in H.
  unfold trimmed. apply andb_true_iff. split.
  - destruct g as [|c g]; [reflexivity|].
    rewrite is_id_char_not_space; [reflexivity|]. apply H. left. reflexivity.
  - destruct (rev g) as [|c r] eqn:Er; [reflexivity|].
    rewrite is_id_char_not_space; [reflexivity|]. apply H.
    apply in_rev. rewrite Er. left. reflexivity.
Qed.

Lemma span_spec (p : ascii -> bool) (s a b : str) :
  span p s = (a, b) -> s = a ++ b /\ forallb p a = true.
Proof.
  revert a b. induction s as [|c s IH]; intros a b; cbn [span].
  - intros H. injection H as <- <-. split; reflexivity.
  - destruct (p c) eqn:Ec.
    + destruct (span p s) as [a' b'] eqn:E. intros H. injection H as <- <-.
      destruct (IH a' b' eq_refl) as [-> Hf].
      split; [reflexivity|]. cbn [forallb]. rewrite Ec, Hf. reflexivity.
    + intros H. injection H as <- <-. split; reflexivity.
Qed.

Lemma startswith_app (s p : str) :
  startswith s p = true -> s = p ++ skipn (length p) s.
Proof.
  revert s. induction p as [|a p IH]; intros s; [reflexivity|].
  destruct s as [|b s]; cbn [startswith]; [discriminate|].
  intros H. apply andb_true_iff in H. destruct H as [Hab Hs].
  apply Ascii.eqb_eq in Hab. subst b.
  cbn [length skipn app]. f_equal. apply IH. exact Hs.
Qed.

(** What a match of the series pattern says about the line: digits, a
    dot, one space, group 1 in [[A-Z0-9]], space-dash-space, group 2 free
    of line feeds; neither group is empty. *)
Lemma match_series_shape (s g1 g2 : str) :
  match_series s = Some (g1, g2) ->
  exists ds rest,
    s = ds ++ lit ". " ++ g1 ++ lit " - " ++ g2 ++ rest /\
    ds <> [] /\ forallb isdigit ds = true /\
    g1 <> [] /\ forallb is_id_char g1 = true /\
    g2 <> [] /\ forallb is_dot_char g2 = true.
Proof.
  unfold match_series.
  destruct (span isdigit s) as [ds r1] eqn:E1.
  destruct (is_empty ds) eqn:Eds; [discriminate|].
  destruct (startswith r1 (lit ". ")) eqn:Es1; [|discriminate].
  cbn [negb].
  destruct (span is_id_char (skipn 2 r1)) as [h1 r2] eqn:E2.
  destruct (is_empty h1) eqn:Eh1; [discriminate|].
  destruct (startswith r2 (lit " - ")) eqn:Es2; [|discriminate].
  cbn [negb].
  destruct (span is_dot_char (skipn 3 r2)) as [h2 r3] eqn:E3.
  destruct (is_empty h2) eqn:Eh2; [discriminate|].
  intros H. injection H as <- <-.
  apply span_spec in E1, E2, E3.
  destruct E1 as [-> Hds], E2 as [Hr1 Hh1], E3 as [Hr2 Hh2].
  apply startswith_app in Es1, Es2.
  change (length (lit ". ")) with 2 in Es1.
  change (length (lit " - ")) with 3 in Es2.
  exists ds, r3.
  split; [|repeat split; auto; intros ->; discriminate].
  rewrite Es1, Hr1, Es2, Hr2. reflexivity.
Qed.

Lemma span_app_stop (p : ascii -> bool) (a b : str) :
  forallb p a = true ->
  match b with [] => True | c :: _ => p c = false end ->
  span p (a ++ b) = (a, b).
Proof.
  intros Ha Hb. induction a as [|x a IH]; cbn [app span].
  - destruct b as [|c b]; [reflexivity|]. cbn [span]. rewrite Hb. reflexivity.
  - cbn [forallb] in Ha. apply andb_true_iff in Ha. destruct Ha as [Hx Ha].
    rewrite Hx, (IH Ha). reflexivity.
Qed.

Lemma span_app_go (p : ascii -> bool) (a b : str) :
  forallb p a = true ->
  exists a' b', span p (a ++ b) = (a ++ a', b').
Proof.
  intros Ha. induction a as [|x a IH]; cbn [app span].
  - destruct (span p b) as [a' b']. exists a', b'. reflexivity.
  - cbn [forallb] in Ha. apply andb_true_iff in Ha. destruct Ha as [Hx Ha].
    rewrite Hx. destruct (IH Ha) as (a' & b' & ->).
    exists a', b'. reflexivity.
Qed.

(** Conversely, every line of that shape matches, with the same group 1
    and with a group 2 that starts as the given one (the pattern's last
    group takes all it can). *)
Lemma match_series_complete (ds g1 g2 rest : str) :
  ds <> [] -> forallb isdigit ds = true ->
  g1 <> [] -> forallb is_id_char g1 = true ->
  g2 <> [] -> forallb is_dot_char g2 = true ->
  exists more,
    match_series (ds ++ lit ". " ++ g1 ++ lit " - " ++ g2 ++ rest)
      = Some (g1, g2 ++ more).
Proof.
  intros Hds Fds Hg1 Fg1 Hg2 Fg2.
  unfold match_series.
  rewrite (span_app_stop isdigit ds _ Fds) by reflexivity.
  destruct ds as [|d ds]; [congruence|]. cbn [is_empty].
  change (startswith (lit ". " ++ g1 ++ lit " - " ++ g2 ++ rest) (lit ". "))
    with true.
  cbn [negb].
  change (skipn 2 (lit ". " ++ g1 ++ lit " - " ++ g2 ++ rest))
    with (g1 ++ lit " - " ++ g2 ++ rest).
  rewrite (span_app_stop is_id_char g1 _ Fg1) by reflexivity.
  destruct g1 as [|x g1]; [congruence|]. cbn [is_empty].
  change (startswith (lit " - " ++ g2 ++ rest) (lit " - ")) with true.
  cbn [negb].
  change (skipn 3 (lit " - " ++ g2 ++ rest)) with (g2 ++ rest).
  destruct (span_app_go is_dot_char g2 rest Fg2) as (more & b' & ->).
  destruct g2 as [|y g2]; [congruence|]. cbn [app is_empty].
  exists more. reflexivity.
Qed.

(** ** One record per matching line *)

Lemma record_at_match (lines : list str) (k : nat) (raw g1 g2 : str) :
  nth_error lines k = Some raw ->
  match_series (strip raw) = Some (g1, g2) ->
  exists j' md nl,
    lookahead (length lines) lines k (k + 1) empty_metadata []
      = Done (j', md, nl) /\
    record_at lines k = [finish_record g1 (strip g2) md nl].
Proof.
  intros Hk Hm.
  destruct (lookahead_first_stop lines k raw g1 g2 [] Hk Hm)
    as (j' & md & nl & Hrun & _).
  exists j', md, nl. split; [exact Hrun|].
  unfold record_at. rewrite Hk, Hm, Hrun.
  destruct (match_series_shape _ _ _ Hm) as (ds & rest & _ & _ & _ & _ & Fg1 & _).
  rewrite (trimmed_strip g1 (id_chars_trimmed g1 Fg1)). reflexivity.
Qed.

Lemma record_at_no_match (lines : list str) (k : nat) (raw : str) :
  nth_error lines k = Some raw ->
  match_series (strip raw) = None ->
  record_at lines k = [].
Proof.
  intros Hk Hm. unfold record_at. rewrite Hk, Hm. reflexivity.
Qed.

(** C2, as amended: the records returned are, in line order, one record
    for each line whose trimmed text matches the pattern of the code,
    [\d+\. ([A-Z0-9]+) - (.+)] with one space after the dot and one on each
    side of the dash and any run of digits before the dot; a line that
    does not match yields no record; the record's id is group 1 and its
    title is group 2 trimmed. *)
Theorem record_iff_series_match (lines : list str) (stem : str) :
  exists p,
    parse_lines lines stem = Done p /\
    results_of p = flat_map (record_at lines) (seq 0 (length lines)) /\
    forall k raw,
      nth_error lines k = Some raw ->
      match match_series (strip raw) with
      | Some (g1, g2) =>
          exists r, record_at lines k = [r] /\
                    series_id r = g1 /\ title r = strip g2
      | None => record_at lines k = []
      end.
Proof.
  assert (Hrec : forall k raw,
             nth_error lines k = Some raw ->
             match match_series (strip raw) with
             | Some (g1, g2) =>
                 exists r, record_at lines k = [r] /\
                           series_id r = g1 /\ title r = strip g2
             | None => record_at lines k = []
             end).
  { intros k raw Hk.
    destruct (match_series (strip raw)) as [[g1 g2]|] eqn:Hm.
    - destruct (record_at_match lines k raw g1 g2 Hk Hm)
        as (j' & md & nl & _ & ->).
      eexists. split; [reflexivity|]. split; reflexivity.
    - apply (record_at_no_match lines k raw Hk Hm). }
  destruct lines as [|l ls] eqn:E.
  - eexists. split; [reflexivity|]. split; [reflexivity | exact Hrec].
  - rewrite parse_lines_records by discriminate.
    eexists. split; [reflexivity|]. split; [reflexivity | exact Hrec].
Qed.

Lemma record_iff_series_match_witness :
  exists r,
    record_at [lit "1. ABC - First"; lit "   Units: Percent"] 0 = [r] /\
    series_id r = lit "ABC" /\ title r = strip (lit "First").
Proof.
  destruct (record_iff_series_match
              [lit "1. ABC - First"; lit "   Units: Percent"] (lit "stem"))
    as (p & _ & _ & H).
  exact (H 0 (lit "1. ABC - First") eq_refl).
Defined.

(** C2, as stated, fails: the line [1.  ABC - Title], with two spaces
    after the dot, matches the pattern of the specification, and no record
    is built for it. *)
Lemma record_start_counterexample :
  Spec.match_record_start (strip (lit "1.  ABC - Title"))
    = Some (lit "ABC", lit "Title") /\
  match_series (strip (lit "1.  ABC - Title")) = None /\
  parse_lines doc_wide_spacing (lit "stem")
    = Done (WithCount (lit "stem") 0 []).
Proof.
  repeat split; vm_compute; reflexivity.
Qed.

(** ** Every stored string is trimmed *)

Lemma Forall_snoc (P : str -> Prop) (l : list str) (x : str) :
  Forall P l -> P x -> Forall P (l ++ [x]).
Proof.
  intros Hl Hx. apply Forall_app. split; [exact Hl | constructor; auto].
Qed.

Lemma absorb_trimmed (raw : str) (prev : option str)
    (md : Metadata) (nl : list str) :
  trimmed_state md nl ->
  trimmed_state (fst (absorb raw prev md nl)) (snd (absorb raw prev md nl)).
Proof.
  intros (Hf & Hu & Hl & Hn & Hnl).
  pose proof strip_trimmed as St.
  pose proof Forall_snoc as Fs.
  unfold absorb, trimmed_state.
  repeat match goal with
         | |- context [if ?b then _ else _] => destruct b
         | |- context [match ?o with Some _ => _ | None => _ end] => destruct o
         end;
    cbn [fst snd set_units set_frequency set_last_updated
         md_frequency md_units md_last_updated md_notes];
    repeat split; auto.
Qed.

Lemma lookahead_trimmed (lines : list str) (i j j' : nat)
    (md md' : Metadata) (nl nl' : list str) (fuel : nat) :
  j <= length lines ->
  length lines - j < fuel ->
  trimmed_state md nl ->
  lookahead fuel lines i j md nl = Done (j', md', nl') ->
  trimmed_state md' nl'.
Proof.
  intros Hj Hfuel Hgood Hrun.
  assert (Hstep : forall k raw m n m1 n1,
             nth_error lines k = Some raw -> trimmed_state m n ->
             step raw (nth_error lines (k + 1)) (previous_line lines i k) m n
               = Some (m1, n1) ->
             trimmed_state m1 n1).
  { intros k raw m n m1 n1 _ Hg Hstep.
    unfold step in Hstep.
    destruct (stops raw (nth_error lines (k + 1))); [discriminate|].
    injection Hstep as Hstep.
    pose proof (absorb_trimmed raw (previous_line lines i k) m n Hg) as Ha.
    rewrite Hstep in Ha. exact Ha. }
  destruct (lookahead_rule lines i (fun _ m n => trimmed_state m n) Hstep
              fuel j md nl Hj Hfuel Hgood)
    as (j1 & md1 & nl1 & Hrun1 & _ & Hinv & _).
  rewrite Hrun in Hrun1. injection Hrun1 as <- <- <-. exact Hinv.
Qed.

Lemma empty_state_trimmed : trimmed_state empty_metadata [].
Proof.
  repeat split; constructor.
Qed.

Lemma in_record_at (lines : list str) (k : nat) (r : SeriesRecord) :
  In r (record_at lines k) ->
  exists raw g1 g2 j md nl,
    nth_error lines k = Some raw /\
    match_series (strip raw) = Some (g1, g2) /\
    lookahead (length lines) lines k (k + 1) empty_metadata []
      = Done (j, md, nl) /\
    r = finish_record (strip g1) (strip g2) md nl.
Proof.
  unfold record_at.
  destruct (nth_error lines k) as [raw|] eqn:Hk; [|intros []].
  destruct (match_series (strip raw)) as [[g1 g2]|] eqn:Hm; [|intros []].
  destruct (lookahead _ _ _ _ _ _) as [[[j md] nl]| |] eqn:Hl;
    [| intros [] | intros []].
  intros [<- | []].
  exists raw, g1, g2, j, md, nl. repeat split; auto.
Qed.

Lemma in_results (lines : list str) (stem : str) (p : ParsedResult)
    (r : SeriesRecord) :
  parse_lines lines stem = Done p ->
  In r (results_of p) ->
  exists k, k < length lines /\ In r (record_at lines k).
Proof.
  intros Hp Hin. destruct lines as [|l ls] eqn:E.
  - injection Hp as <-. destruct Hin.
  - rewrite parse_lines_records in Hp by discriminate.
    injection Hp as <-. cbn [results_of] in Hin.
    unfold records_of in Hin. apply in_flat_map in Hin.
    destruct Hin as (k & Hk & Hr). apply in_seq in Hk.
    exists k. split; [lia | exact Hr].
Qed.

(** C10: in every record the routine returns, none of the six strings
    has white space at either end, and [notes] is the trimmed join, with
    single spaces, of lines that are themselves trimmed. *)
Theorem record_fields_trimmed (lines : list str) (stem : str)
    (p : ParsedResult) (r : SeriesRecord) :
  parse_lines lines stem = Done p ->
  In r (results_of p) ->
  trimmed (series_id r) = true /\
  trimmed (title r) = true /\
  trimmed (frequency r) = true /\
  trimmed (units r) = true /\
  trimmed (last_updated r) = true /\
  trimmed (notes r) = true /\
  exists ls, Forall (fun l => trimmed l = true) ls /\
             notes r = strip (join (lit " ") ls).
Proof.
  intros Hp Hin.
  destruct (in_results lines stem p r Hp Hin) as (k & Hk & Hr).
  destruct (in_record_at lines k r Hr)
    as (raw & g1 & g2 & j & md & nl & _ & _ & Hrun & ->).
  assert (Hgood : trimmed_state md nl).
  { apply (lookahead_trimmed lines k (k + 1) j empty_metadata md [] nl
             (length lines)); [lia | lia | apply empty_state_trimmed | exact Hrun]. }
  destruct Hgood as (Hf & Hu & Hl & Hn & Hnl).
  unfold finish_record.
  destruct nl as [|n nl].
  - cbn [is_empty negb make_record series_id title frequency units
         last_updated notes].
    rewrite Hn. repeat split; auto using strip_trimmed.
    exists []. split; [constructor | reflexivity].
  - cbn [is_empty negb make_record set_notes series_id title frequency units
         last_updated notes md_frequency md_units md_last_updated md_notes].
    repeat split; auto using strip_trimmed.
    exists (n :: nl). split; [exact Hnl | reflexivity].
Qed.

Lemma record_fields_trimmed_witness :
  let r := mkSeriesRecord (lit "ABC") (lit "Title") [] (lit "Percent") []
             (lit "Part one continuation text") in
  trimmed (series_id r) = true /\
  trimmed (title r) = true /\
  trimmed (frequency r) = true /\
  trimmed (units r) = true /\
  trimmed (last_updated r) = true /\
  trimmed (notes r) = true /\
  exists ls, Forall (fun l => trimmed l = true) ls /\
             notes r = strip (join (lit " ") ls).
Proof.
  apply (record_fields_trimmed
           [lit "1. ABC -   Title"; lit "   Notes:   Part one  ";
            lit "  continuation text "; lit "  Units: Percent "]
           (lit "stem")
           (WithCount (lit "stem") 1
              [mkSeriesRecord (lit "ABC") (lit "Title") [] (lit "Percent") []
                 (lit "Part one continuation text")])).
  - vm_compute. reflexivity.
  - left. reflexivity.
Defined.

(** ** The sentinel *)

Lemma notes_line_not_stop (raw : str) (after : option str) :
  has_notes_prefix raw = true -> stops raw after = false.
Proof.
  unfold has_notes_prefix, stops. intros H.
  apply startswith_app in H. rewrite H. reflexivity.
Qed.

Lemma sentinel_line_step (raw : str) (after prev : option str)
    (md : Metadata) (nl : list str) :
  is_sentinel_notes raw = true ->
  step raw after prev md nl = Some (md, nl).
Proof.
  unfold is_sentinel_notes. intros H.
  apply andb_true_iff in H. destruct H as [H Hs].
  apply andb_true_iff in H. destruct H as [Hf Hn].
  unfold step. rewrite (notes_line_not_stop raw after Hn).
  unfold absorb.
  assert (Hb : is_empty (strip raw) = false).
  { unfold has_notes_prefix in Hn. apply startswith_app in Hn.
    rewrite Hn. reflexivity. }
  rewrite Hb.
  unfold has_field_prefix in Hf. apply negb_true_iff in Hf.
  apply orb_false_iff in Hf. destruct Hf as [Hf Hl].
  apply orb_false_iff in Hf. destruct Hf as [Hu Hf].
  unfold has_notes_prefix in Hn.
  rewrite Hu, Hf, Hl, Hn, Hs. reflexivity.
Qed.

Lemma absorb_no_notes (raw : str) (prev : option str) (md : Metadata) :
  bears_no_notes raw prev = true ->
  snd (absorb raw prev md []) = [].
Proof.
  unfold bears_no_notes, absorb, is_blank. intros H.
  destruct (is_empty (strip raw)) eqn:Eb; [reflexivity|].
  cbn [orb] in H.
  destruct (has_field_prefix raw) eqn:Ef.
  { unfold has_field_prefix in Ef.
    destruct (startswith (strip raw) (lit "Units: ")); [reflexivity|].
    destruct (startswith (strip raw) (lit "Frequency: ")); [reflexivity|].
    destruct (startswith (strip raw) (lit "Last Updated: "));
      [reflexivity | discriminate]. }
  cbn [orb] in H.
  unfold has_field_prefix in Ef.
  apply orb_false_iff in Ef. destruct Ef as [Ef El].
  apply orb_false_iff in Ef. destruct Ef as [Eu Ef].
  rewrite Eu, Ef, El.
  apply orb_true_iff in H. destruct H as [H|H].
  - unfold is_sentinel_notes in H.
    apply andb_true_iff in H. destruct H as [H Hs].
    apply andb_true_iff in H. destruct H as [_ Hn].
    unfold has_notes_prefix in Hn. rewrite Hn, Hs. reflexivity.
  - apply andb_true_iff in H. destruct H as [Hk Hp].
    apply negb_true_iff in Hk. unfold has_known_prefix in Hk.
    apply orb_false_iff in Hk. destruct Hk as [_ Hn].
    unfold has_notes_prefix in Hn. rewrite Hn. cbn [is_empty negb].
    destruct prev as [before|]; [|reflexivity].
    apply negb_true_iff in Hp. rewrite Hp. reflexivity.
Qed.

Lemma lookahead_no_notes (lines : list str) (k j' : nat)
    (md : Metadata) (nl : list str) :
  k < length lines ->
  lookahead (length lines) lines k (k + 1) empty_metadata []
    = Done (j', md, nl) ->
  (forall m raw_m, k < m < j' -> nth_error lines m = Some raw_m ->
       bears_no_notes raw_m (previous_line lines k m) = true) ->
  nl = [].
Proof.
  intros Hk Hrun Hq.
  set (Inv := fun (m : nat) (_ : Metadata) (n : list str) =>
                k < m /\ (m <= j' -> n = [])).
  assert (Hstep : forall q raw m n m1 n1,
             nth_error lines q = Some raw -> Inv q m n ->
             step raw (nth_error lines (q + 1)) (previous_line lines k q) m n
               = Some (m1, n1) ->
             Inv (q + 1) m1 n1).
  { intros q raw m n m1 n1 Hraw [Hkq Hinv] Hstep.
    split; [lia|]. intros Hle.
    unfold step in Hstep.
    destruct (stops raw (nth_error lines (q + 1))); [discriminate|].
    injection Hstep as Hstep.
    rewrite (Hinv ltac:(lia)) in Hstep.
    pose proof (absorb_no_notes raw (previous_line lines k q) m
                  (Hq q raw ltac:(lia) Hraw)) as Ha.
    rewrite Hstep in Ha. exact Ha. }
  destruct (lookahead_rule lines k Inv Hstep (length lines) (k + 1)
              empty_metadata [])
    as (j1 & md1 & nl1 & Hrun1 & _ & [_ Hinv] & _);
    [lia | lia | split; [lia | reflexivity] |].
  rewrite Hrun in Hrun1. injection Hrun1 as <- <- <-.
  apply Hinv. lia.
Qed.

Lemma absorb_pieces (lines : list str) (raw : str) (prev : option str)
    (md : Metadata) (nl : list str) :
  In raw lines ->
  Forall (notes_piece lines) nl ->
  Forall (notes_piece lines) (snd (absorb raw prev md nl)).
Proof.
  intros Hin Hnl. unfold absorb.
  destruct (is_empty (strip raw)) eqn:Eb; [exact Hnl|].
  destruct (startswith (strip raw) (lit "Units: ")) eqn:Eu; [exact Hnl|].
  destruct (startswith (strip raw) (lit "Frequency: ")) eqn:Ef; [exact Hnl|].
  destruct (startswith (strip raw) (lit "Last Updated: ")) eqn:El;
    [exact Hnl|].
  destruct (startswith (strip raw) (lit "Notes: ")) eqn:En.
  - destruct (str_eqb (strip (replace (strip raw) (lit "Notes: ") []))
                sentinel) eqn:Es; cbn [negb snd]; [exact Hnl|].
    apply Forall_snoc; [exact Hnl|].
    exists raw. split; [exact Hin|]. left.
    split; [exact En|]. split; [reflexivity|].
    intros E. unfold str_eqb in Es.
    destruct (list_eq_dec ascii_dec
                (strip (replace (strip raw) (lit "Notes: ") [])) sentinel);
      congruence.
  - assert (Hc : notes_piece lines (strip raw)).
    { exists raw. split; [exact Hin|]. right.
      split; [exact Eb|]. split; [|reflexivity].
      unfold has_known_prefix, has_field_prefix, has_notes_prefix.
      rewrite Eu, Ef, El, En. reflexivity. }
    destruct (negb (is_empty nl)); cbn [snd].
    { apply Forall_snoc; assumption. }
    destruct prev as [before|]; [|exact Hnl].
    destruct (contains (lit "Notes:") before); cbn [snd];
      [apply Forall_snoc; assumption | exact Hnl].
Qed.

Lemma lookahead_pieces (lines : list str) (i j j' : nat)
    (md md' : Metadata) (nl nl' : list str) (fuel : nat) :
  j <= length lines ->
  length lines - j < fuel ->
  Forall (notes_piece lines) nl ->
  lookahead fuel lines i j md nl = Done (j', md', nl') ->
  Forall (notes_piece lines) nl'.
Proof.
  intros Hj Hfuel Hgood Hrun.
  assert (Hstep : forall k raw m n m1 n1,
             nth_error lines k = Some raw ->
             Forall (notes_piece lines) n ->
             step raw (nth_error lines (k + 1)) (previous_line lines i k) m n
               = Some (m1, n1) ->
             Forall (notes_piece lines) n1).
  { intros k raw m n m1 n1 Hraw Hg Hstep.
    unfold step in Hstep.
    destruct (stops raw (nth_error lines (k + 1))); [discriminate|].
    injection Hstep as Hstep.
    pose proof (absorb_pieces lines raw (previous_line lines i k) m n
                  (nth_error_In _ _ Hraw) Hg) as Ha.
    rewrite Hstep in Ha. exact Ha. }
  destruct (lookahead_rule lines i
              (fun _ _ n => Forall (notes_piece lines) n) Hstep
              fuel j md nl Hj Hfuel Hgood)
    as (j1 & md1 & nl1 & Hrun1 & _ & Hinv & _).
  rewrite Hrun in Hrun1. injection Hrun1 as <- <- <-. exact Hinv.
Qed.

(** C7, as amended: a [Notes: ] line whose text is exactly the sentinel
    leaves the state of the inner loop as it is, whatever the state.  In
    every record of every document the notes are the trimmed join, with
    single spaces, of pieces each of which is either the text of a
    [Notes: ] line that is not the sentinel or the trimmed text of a
    non-blank line without a known prefix: the sentinel never comes into
    the notes from a [Notes: ] line, only from a line without a prefix that
    the loop absorbs.  And a record all of whose lookahead lines are blank
    lines, units, frequency or last-updated lines, sentinel notes lines,
    or lines without a known prefix that do not come right after a line
    containing ["Notes:"], has empty notes. *)
Theorem sentinel_notes_elided :
  (forall lines i j raw md nl,
      nth_error lines j = Some raw ->
      is_sentinel_notes raw = true ->
      lookahead_body lines i j md nl = Done (Some (md, nl))) /\
  (forall lines stem p r,
      parse_lines lines stem = Done p ->
      In r (results_of p) ->
      exists pieces,
        notes r = strip (join (lit " ") pieces) /\
        Forall (notes_piece lines) pieces) /\
  (forall lines k raw g1 g2 j' md nl,
      nth_error lines k = Some raw ->
      match_series (strip raw) = Some (g1, g2) ->
      lookahead (length lines) lines k (k + 1) empty_metadata []
        = Done (j', md, nl) ->
      (forall m raw_m, k < m < j' -> nth_error lines m = Some raw_m ->
           bears_no_notes raw_m (previous_line lines k m) = true) ->
      exists r, record_at lines k = [r] /\ notes r = []).
Proof.
  split; [|split].
  - intros lines i j raw md nl Hj Hs.
    rewrite (lookahead_body_step lines i j raw md nl Hj).
    rewrite sentinel_line_step by assumption. reflexivity.
  - intros lines stem p r Hp Hin.
    destruct (in_results lines stem p r Hp Hin) as (k & Hk & Hr).
    destruct (in_record_at lines k r Hr)
      as (raw & g1 & g2 & j & md & nl & _ & _ & Hrun & ->).
    assert (Hpieces : Forall (notes_piece lines) nl).
    { apply (lookahead_pieces lines k (k + 1) j empty_metadata md [] nl
               (length lines)); [lia | lia | constructor | exact Hrun]. }
    assert (Hgood : trimmed_state md nl).
    { apply (lookahead_trimmed lines k (k + 1) j empty_metadata md [] nl
               (length lines));
        [lia | lia | apply empty_state_trimmed | exact Hrun]. }
    destruct Hgood as (_ & _ & _ & Hn & _).
    exists nl. split; [|exact Hpieces].
    unfold finish_record. destruct nl as [|n nl].
    + cbn [is_empty negb make_record notes]. rewrite Hn. reflexivity.
    + reflexivity.
  - intros lines k raw g1 g2 j' md nl Hk Hm Hrun Hq.
    assert (Hlt : k < length lines) by (apply nth_error_Some; congruence).
    pose proof (lookahead_no_notes lines k j' md nl Hlt Hrun Hq) as ->.
    assert (Hgood : trimmed_state md []).
    { apply (lookahead_trimmed lines k (k + 1) j' empty_metadata md [] []
               (length lines)); [lia | lia | apply empty_state_trimmed | exact Hrun]. }
    destruct Hgood as (_ & _ & _ & Hn & _).
    unfold record_at. rewrite Hk, Hm, Hrun.
    eexists. split; [reflexivity|].
    unfold finish_record. cbn [is_empty negb make_record notes]. exact Hn.
Qed.

Lemma sentinel_notes_elided_witness :
  exists r,
    record_at [lit "1. ABC - Title"; lit "   Notes: No description available";
               lit "   Units: Percent"] 0 = [r] /\
    notes r = [].
Proof.
  apply (proj2 (proj2 sentinel_notes_elided)
           [lit "1. ABC - Title"; lit "   Notes: No description available";
            lit "   Units: Percent"]
           0 (lit "1. ABC - Title") (lit "ABC") (lit "Title")
           3 (mkMetadata [] (lit "Percent") [] []) []).
  - reflexivity.
  - reflexivity.
  - vm_compute. reflexivity.
  - intros m raw_m Hm Hraw.
    destruct m as [|[|[|m]]]; try lia;
      cbn [nth_error] in Hraw; injection Hraw as <-; vm_compute; reflexivity.
Defined.

(** C7, as stated, fails: after a [Notes: ] line that carries the
    sentinel, a line without a prefix is absorbed into the notes.  When
    that line reads as the sentinel, the notes of the record are the
    sentinel text, although the record's only [Notes: ] line is a sentinel
    line; when it reads otherwise, the notes are not empty. *)
Lemma sentinel_counterexample :
  is_sentinel_notes (lit "Notes: No description available") = true /\
  has_notes_prefix (lit "No description available") = false /\
  has_notes_prefix (lit "some other text") = false /\
  parse_lines doc_sentinel_repeated (lit "stem")
    = Done (WithCount (lit "stem") 1
              [mkSeriesRecord (lit "ABC") (lit "Title") [] [] [] sentinel]) /\
  parse_lines doc_sentinel_then_text (lit "stem")
    = Done (WithCount (lit "stem") 1
              [mkSeriesRecord (lit "ABC") (lit "Title") [] [] []
                 (lit "some other text")]).
Proof.
  repeat split; vm_compute; reflexivity.
Qed.

(** ** The two copies *)

Lemma find_query_copy (first_lines : list str) (query : str) :
  ConvertSearchResultsMarkdown.find_query first_lines query
  = find_query first_lines query.
Proof.
  induction first_lines as [|line rest IH]; [reflexivity|].
  cbn [ConvertSearchResultsMarkdown.find_query find_query].
  rewrite IH. reflexivity.
Qed.

Lemma lookahead_body_copy (lines : list str) (i j : nat)
    (md : Metadata) (nl : list str) :
  ConvertSearchResultsMarkdown.lookahead_body lines i j md nl
  = lookahead_body lines i j md nl.
Proof.
  reflexivity.
Qed.

Lemma lookahead_copy (fuel : nat) (lines : list str) (i j : nat)
    (md : Metadata) (nl : list str) :
  ConvertSearchResultsMarkdown.lookahead fuel lines i j md nl
  = lookahead fuel lines i j md nl.
Proof.
  revert j md nl. induction fuel as [|fuel IH]; intros j md nl; [reflexivity|].
  cbn [ConvertSearchResultsMarkdown.lookahead lookahead].
  rewrite lookahead_body_copy.
  destruct (j <? length lines); [|reflexivity].
  destruct (lookahead_body lines i j md nl) as [[[md1 nl1]|]| |];
    cbn [bind]; [apply IH | reflexivity | reflexivity | reflexivity].
Qed.

Lemma scan_body_copy (lines : list str) (i : nat) (r : list SeriesRecord) :
  ConvertSearchResultsMarkdown.scan_body lines i r = scan_body lines i r.
Proof.
  unfold ConvertSearchResultsMarkdown.scan_body, scan_body.
  destruct (getitem lines i) as [raw| |]; cbn [bind];
    [| reflexivity | reflexivity].
  destruct (is_empty (strip raw) || startswith_any (strip raw) header_prefixes);
    [reflexivity|].
  destruct (match_series (strip raw)) as [[g1 g2]|]; [|reflexivity].
  rewrite lookahead_copy. reflexivity.
Qed.

Lemma scan_copy (fuel : nat) (lines : list str) (i : nat)
    (r : list SeriesRecord) :
  ConvertSearchResultsMarkdown.scan fuel lines i r = scan fuel lines i r.
Proof.
  revert i r. induction fuel as [|fuel IH]; intros i r; [reflexivity|].
  cbn [ConvertSearchResultsMarkdown.scan scan].
  rewrite scan_body_copy.
  destruct (i <? length lines); [|reflexivity].
  destruct (scan_body lines i r) as [[i1 r1]| |]; cbn [bind];
    [apply IH | reflexivity | reflexivity].
Qed.

(** C6: the copy of the routine in the Markdown converter returns, on
    every stem and text, what the copy in the JSON converter returns: the
    same query label, the same result count and the same list of records
    in the same order. *)
Theorem parser_copies_agree (stem content : str) :
  ConvertSearchResultsMarkdown.parse_search_result_file stem content
  = ConvertSearchResults.parse_search_result_file stem content.
Proof.
  unfold ConvertSearchResultsMarkdown.parse_search_result_file,
    parse_search_result_file,
    ConvertSearchResultsMarkdown.parse_lines, parse_lines.
  rewrite find_query_copy, scan_copy. reflexivity.
Qed.

(** ** The one-pass reading agrees with the loops *)

Lemma skipn_nth_error (lines : list str) (j : nat) (raw : str) :
  nth_error lines j = Some raw ->
  skipn j lines = raw :: skipn (j + 1) lines.
Proof.
  revert j. induction lines as [|l ls IH]; intros j H.
  - destruct j; discriminate.
  - destruct j as [|j]; cbn [nth_error] in H.
    + injection H as ->. reflexivity.
    + cbn [skipn Nat.add]. apply IH. exact H.
Qed.

Lemma hd_error_skipn (lines : list str) (j : nat) :
  hd_error (skipn j lines) = nth_error lines j.
Proof.
  revert j. induction lines as [|l ls IH]; intros j.
  - destruct j; reflexivity.
  - destruct j as [|j]; [reflexivity|]. cbn [skipn nth_error]. apply IH.
Qed.

Lemma lookahead_run (fuel : nat) (lines : list str) (i j : nat)
    (md : Metadata) (nl : list str) (sid ttl : str) :
  i + 1 <= j <= length lines ->
  length lines - j < fuel ->
  exists j' md' nl',
    lookahead fuel lines i j md nl = Done (j', md', nl') /\
    j <= j' <= length lines /\
    run (Inside sid ttl md nl (previous_line lines i j)) (skipn j lines)
    = finish_record sid ttl md' nl' :: run Outside (skipn j' lines).
Proof.
  revert j md nl.
  induction fuel as [|fuel IH]; intros j md nl Hj Hfuel; [lia|].
  cbn [lookahead].
  destruct (j <? length lines) eqn:Ej.
  - apply Nat.ltb_lt in Ej.
    destruct (nth_error_in_range _ lines _ Ej) as [raw Hraw].
    rewrite (lookahead_body_step lines i j raw md nl Hraw). cbn [bind].
    rewrite (skipn_nth_error lines j raw Hraw). cbn [run].
    rewrite hd_error_skipn.
    destruct (step raw (nth_error lines (j + 1)) (previous_line lines i j) md nl)
      as [[md1 nl1]|] eqn:Es.
    + destruct (IH (j + 1) md1 nl1) as (j' & md' & nl' & Hrun & Hb & Hr);
        [lia | lia |].
      exists j', md', nl'. split; [exact Hrun|]. split; [lia|].
      rewrite <- Hr. f_equal. f_equal.
      unfold previous_line.
      replace (i + 1 <? j + 1) with true by (symmetry; apply Nat.ltb_lt; lia).
      replace (j + 1 - 1) with j by lia. symmetry. exact Hraw.
    + exists j, md, nl. split; [reflexivity|]. split; [lia|].
      rewrite (skipn_nth_error lines j raw Hraw). reflexivity.
  - apply Nat.ltb_ge in Ej.
    assert (j = length lines) by lia. subst j.
    exists (length lines), md, nl. split; [reflexivity|]. split; [lia|].
    rewrite skipn_all. reflexivity.
Qed.

Lemma scan_run (fuel : nat) (lines : list str) (i : nat)
    (r : list SeriesRecord) :
  i <= length lines ->
  length lines - i < fuel ->
  scan fuel lines i r = Done (r ++ run Outside (skipn i lines)).
Proof.
  revert i r.
  induction fuel as [|fuel IH]; intros i r Hi Hfuel; [lia|].
  cbn [scan].
  destruct (i <? length lines) eqn:Ei.
  - apply Nat.ltb_lt in Ei.
    destruct (nth_error_in_range _ lines _ Ei) as [raw Hraw].
    rewrite (skipn_nth_error lines i raw Hraw). cbn [run].
    unfold scan_body, getitem, enter. rewrite Hraw. cbn [bind].
    destruct (is_empty (strip raw) || startswith_any (strip raw) header_prefixes).
    { cbn [bind]. apply IH; lia. }
    destruct (match_series (strip raw)) as [[g1 g2]|].
    + destruct (lookahead_run (length lines) lines i (i + 1) empty_metadata []
                  (strip g1) (strip g2))
        as (j' & md' & nl' & Hrun & Hb & Hr); [lia | lia |].
      rewrite Hrun. cbn [bind].
      rewrite IH by lia.
      unfold previous_line in Hr.
      rewrite Nat.ltb_irrefl in Hr. rewrite Hr.
      rewrite <- app_assoc. reflexivity.
    + cbn [bind]. apply IH; lia.
  - apply Nat.ltb_ge in Ei.
    assert (i = length lines) by lia. subst i.
    rewrite skipn_all, app_nil_r. reflexivity.
Qed.

Lemma records_of_run (lines : list str) :
  records_of lines = run Outside lines.
Proof.
  pose proof (scan_records lines (S (length lines)) (Nat.lt_succ_diag_r _)) as H1.
  pose proof (scan_run (S (length lines)) lines 0 [] (Nat.le_0_l _)) as H2.
  rewrite H2 in H1 by lia. injection H1 as H1. symmetry. exact H1.
Qed.

(** ** Field lines in any order *)

Lemma number_dot_stops (raw : str) (after : option str) :
  match_number_dot (strip raw) = true -> stops raw after = true.
Proof.
  unfold stops. intros H.
  destruct (is_empty (strip raw)) eqn:Eb; [|exact H].
  rewrite match_number_dot_blank in H by assumption. discriminate.
Qed.


Lemma field_of_prefix (raw : str) (f : field) :
  field_of raw = Some f ->
  exists p rest, strip raw = p :: rest /\
                 isdigit p = false /\ has_known_prefix raw = true.
Proof.
  unfold field_of, has_known_prefix, has_field_prefix, has_notes_prefix.
  destruct (startswith (strip raw) (lit "Units: ")) eqn:E1.
  { intros _. apply startswith_app in E1. rewrite E1.
    eexists _, _. repeat split. }
  destruct (startswith (strip raw) (lit "Frequency: ")) eqn:E2.
  { intros _. apply startswith_app in E2. rewrite E2.
    eexists _, _. repeat split. }
  destruct (startswith (strip raw) (lit "Last Updated: ")) eqn:E3.
  { intros _. apply startswith_app in E3. rewrite E3.
    eexists _, _. repeat split. }
  destruct (startswith (strip raw) (lit "Notes: ")) eqn:E4; [|discriminate].
  intros _. apply startswith_app in E4. rewrite E4.
  eexists _, _. repeat split.
Qed.

Lemma field_line_not_stop (raw : str) (f : field) (after : option str) :
  field_of raw = Some f -> stops raw after = false.
Proof.
  intros H. destruct (field_of_prefix raw f H) as (p & rest & E & Hp & _).
  unfold stops, match_number_dot. rewrite E. cbn [is_empty span].
  rewrite Hp. reflexivity.
Qed.

Lemma absorb_field (raw : str) (f : field) (prev : option str)
    (md : Metadata) (nl : list str) :
  field_of raw = Some f ->
  absorb raw prev md nl = field_update f (strip raw) md nl.
Proof.
  intros H. destruct (field_of_prefix raw f H) as (p & rest & E & _ & _).
  unfold absorb. unfold field_of in H.
  replace (is_empty (strip raw)) with false by (rewrite E; reflexivity).
  destruct (startswith (strip raw) (lit "Units: ")).
  { injection H as <-. reflexivity. }
  destruct (startswith (strip raw) (lit "Frequency: ")).
  { injection H as <-. reflexivity. }
  destruct (startswith (strip raw) (lit "Last Updated: ")).
  { injection H as <-. reflexivity. }
  destruct (startswith (strip raw) (lit "Notes: ")); [|discriminate].
  injection H as <-. reflexivity.
Qed.

Lemma run_field_line (raw : str) (f : field) (rest : list str)
    (sid ttl : str) (md : Metadata) (nl : list str) (prev : option str) :
  field_of raw = Some f ->
  run (Inside sid ttl md nl prev) (raw :: rest)
  = run (Inside sid ttl (fst (apply_field (md, nl) raw))
           (snd (apply_field (md, nl) raw)) (Some raw)) rest.
Proof.
  intros H. cbn [run]. unfold step, apply_field.
  rewrite (field_line_not_stop raw f _ H).
  rewrite (absorb_field raw f prev md nl H).
  rewrite (absorb_field raw f None _ _ H).
  cbn [fst snd].
  destruct (field_update f (strip raw) md nl). reflexivity.
Qed.

Lemma run_field_lines (fields post : list str) (sid ttl : str) :
  Forall (fun l => field_of l <> None) fields ->
  forall md nl prev,
    run (Inside sid ttl md nl prev) (fields ++ post)
    = run (Inside sid ttl (fst (fold_left apply_field fields (md, nl)))
             (snd (fold_left apply_field fields (md, nl)))
             (last_line prev fields)) post.
Proof.
  induction 1 as [|l fields Hl _ IH]; intros md nl prev; [reflexivity|].
  destruct (field_of l) as [f|] eqn:Ef; [|congruence].
  cbn [app]. rewrite (run_field_line l f _ sid ttl md nl prev Ef).
  rewrite IH. cbn [fold_left last_line].
  destruct (apply_field (md, nl) l). reflexivity.
Qed.








Lemma record_at_run (lines : list str) (k : nat) (raw g1 g2 : str) :
  nth_error lines k = Some raw ->
  match_series (strip raw) = Some (g1, g2) ->
  record_at lines k
  = firstn 1 (run (Inside (strip g1) (strip g2) empty_metadata [] None)
                (skipn (k + 1) lines)).
Proof.
  intros Hk Hm.
  assert (Hlt : k < length lines) by (apply nth_error_Some; congruence).
  destruct (lookahead_run (length lines) lines k (k + 1) empty_metadata []
              (strip g1) (strip g2))
    as (j' & md' & nl' & Hrun & _ & Hr); [lia | lia |].
  unfold previous_line in Hr. rewrite Nat.ltb_irrefl in Hr.
  rewrite Hr. unfold record_at. rewrite Hk, Hm, Hrun. reflexivity.
Qed.

Lemma nth_error_middle (pre : list str) (x : str) (rest : list str) :
  nth_error (pre ++ x :: rest) (length pre) = Some x.
Proof.
  induction pre as [|l pre IH]; [reflexivity | exact IH].
Qed.

Lemma skipn_middle (pre : list str) (x : str) (rest : list str) :
  skipn (length pre + 1) (pre ++ x :: rest) = rest.
Proof.
  induction pre as [|l pre IH]; [reflexivity | exact IH].
Qed.










(** * Further properties of the routine *)

(** ** A document splits at every line that starts with digits and a dot *)

Lemma blank_line_step (raw : str) (prev : option str)
    (md : Metadata) (nl : list str) :
  is_empty (strip raw) = true ->
  step raw None prev md nl = Some (md, nl).
Proof.
  intros Hb. unfold step, stops, absorb. rewrite Hb. reflexivity.
Qed.

Lemma blank_line_enter (raw : str) :
  is_empty (strip raw) = true -> enter raw = Outside.
Proof.
  intros Hb. unfold enter. rewrite Hb. reflexivity.
Qed.

Lemma step_after_irrelevant (raw : str) (a1 a2 prev : option str)
    (md : Metadata) (nl : list str) :
  is_empty (strip raw) = false ->
  step raw a1 prev md nl = step raw a2 prev md nl.
Proof.
  intros Hb. unfold step, stops. rewrite Hb. reflexivity.
Qed.

Lemma run_split (start : str) (rest : list str) :
  match_number_dot (strip start) = true ->
  forall pre m,
    run m (pre ++ start :: rest) = run m pre ++ run Outside (start :: rest).
Proof.
  intros Hs pre.
  induction pre as [|l pre IH]; intros m.
  - destruct m as [|sid ttl md nl prev]; [reflexivity|].
    cbn [app run flush]. unfold step.
    rewrite (number_dot_stops start _ Hs). reflexivity.
  - destruct m as [|sid ttl md nl prev].
    + cbn [app run]. apply IH.
    + destruct pre as [|l2 pre].
      * cbn [app run hd_error].
        destruct (is_empty (strip l)) eqn:Eb.
        -- rewrite (blank_line_step l prev md nl Eb).
           unfold step, stops. rewrite Eb, Hs.
           rewrite (blank_line_enter l Eb). reflexivity.
        -- rewrite (step_after_irrelevant l (Some start) None prev md nl Eb).
           destruct (step l None prev md nl) as [[md1 nl1]|].
           ++ cbn [flush]. unfold step.
              rewrite (number_dot_stops start _ Hs). reflexivity.
           ++ destruct (enter l) as [|s1 t1 m1 n1 p1]; cbn [flush app].
              ** reflexivity.
              ** unfold step. rewrite (number_dot_stops start _ Hs).
                 reflexivity.
      * change (run (Inside sid ttl md nl prev) ((l :: l2 :: pre) ++ start :: rest))
          with (match step l (Some l2) prev md nl with
                | None => finish_record sid ttl md nl
                          :: run (enter l) ((l2 :: pre) ++ start :: rest)
                | Some (md', nl') =>
                    run (Inside sid ttl md' nl' (Some l))
                      ((l2 :: pre) ++ start :: rest)
                end).
        change (run (Inside sid ttl md nl prev) (l :: l2 :: pre))
          with (match step l (Some l2) prev md nl with
                | None => finish_record sid ttl md nl
                          :: run (enter l) (l2 :: pre)
                | Some (md', nl') =>
                    run (Inside sid ttl md' nl' (Some l)) (l2 :: pre)
                end).
        destruct (step l (Some l2) prev md nl) as [[md1 nl1]|].
        -- apply IH.
        -- rewrite IH. reflexivity.
Qed.

Lemma parse_lines_results (lines : list str) (stem : str) :
  exists p, parse_lines lines stem = Done p /\ results_of p = records_of lines.
Proof.
  destruct lines as [|l ls] eqn:E.
  - eexists. split; reflexivity.
  - rewrite parse_lines_records by discriminate.
    eexists. split; reflexivity.
Qed.

(** The records of a document cut in two before a line that starts with
    digits and a dot are the records of the first part followed by the
    records of the second part: no record reaches across such a line. *)
Theorem records_split_at_number_line (pre : list str) (start : str)
    (rest : list str) (stem : str) :
  match_number_dot (strip start) = true ->
  exists p p1 p2,
    parse_lines (pre ++ start :: rest) stem = Done p /\
    parse_lines pre stem = Done p1 /\
    parse_lines (start :: rest) stem = Done p2 /\
    results_of p = results_of p1 ++ results_of p2.
Proof.
  intros Hs.
  destruct (parse_lines_results (pre ++ start :: rest) stem) as (p & Hp & Rp).
  destruct (parse_lines_results pre stem) as (p1 & Hp1 & Rp1).
  destruct (parse_lines_results (start :: rest) stem) as (p2 & Hp2 & Rp2).
  exists p, p1, p2. repeat split; try assumption.
  rewrite Rp, Rp1, Rp2, !records_of_run.
  apply run_split. exact Hs.
Qed.

Lemma records_split_at_number_line_witness :
  exists p p1 p2,
    parse_lines ([lit "1. ABC - First"; lit "  Notes: one"; lit ""]
                 ++ lit "2. XYZ - Second" :: [lit "  Units: Percent"])
      (lit "stem") = Done p /\
    parse_lines [lit "1. ABC - First"; lit "  Notes: one"; lit ""]
      (lit "stem") = Done p1 /\
    parse_lines (lit "2. XYZ - Second" :: [lit "  Units: Percent"])
      (lit "stem") = Done p2 /\
    results_of p = results_of p1 ++ results_of p2.
Proof.
  apply (records_split_at_number_line
           [lit "1. ABC - First"; lit "  Notes: one"; lit ""]
           (lit "2. XYZ - Second") [lit "  Units: Percent"] (lit "stem")).
  reflexivity.
Defined.

(** ** The strings of a record are made of the document's characters *)

Section CharClass.

Variable p : ascii -> bool.

Lemma forallb_lstrip (s : str) :
  forallb p s = true -> forallb p (lstrip s) = true.
Proof.
  induction s as [|c s IH]; [reflexivity|].
  intros H. cbn [lstrip]. destruct (isspace c); [|exact H].
  cbn [forallb] in H. apply andb_true_iff in H. apply IH, H.
Qed.

Lemma forallb_rev (s : str) :
  forallb p s = true -> forallb p (rev s) = true.
Proof.
  rewrite !forallb_forall. intros H c Hc. apply H, in_rev, Hc.
Qed.

Lemma forallb_strip (s : str) :
  forallb p s = true -> forallb p (strip s) = true.
Proof.
  intros H. unfold strip, rstrip.
  apply forallb_rev, forallb_lstrip, forallb_rev, forallb_lstrip, H.
Qed.

Lemma forallb_replace_from (k : nat) (s old : str) :
  forallb p s = true -> forallb p (replace_from k s old []) = true.
Proof.
  revert k. induction s as [|c s IH]; intros k H; [reflexivity|].
  cbn [forallb] in H. apply andb_true_iff in H. destruct H as [Hc Hs].
  cbn [replace_from]. destruct k as [|k]; [|apply IH, Hs].
  destruct (startswith (c :: s) old).
  - cbn [app]. apply IH, Hs.
  - cbn [forallb]. rewrite Hc. apply IH, Hs.
Qed.

Lemma forallb_replace (s old : str) :
  forallb p s = true -> forallb p (replace s old []) = true.
Proof.
  apply forallb_replace_from.
Qed.

Lemma forallb_join (sep : str) (l : list str) :
  forallb p sep = true ->
  Forall (fun x => forallb p x = true) l ->
  forallb p (join sep l) = true.
Proof.
  intros Hsep Hl. induction Hl as [|x l Hx Hl IH]; [reflexivity|].
  cbn [join]. destruct l as [|y l]; [exact Hx|].
  rewrite !forallb_app, Hx, Hsep. exact IH.
Qed.

Lemma absorb_chars (raw : str) (prev : option str)
    (md : Metadata) (nl : list str) :
  forallb p raw = true ->
  state_chars p md nl ->
  state_chars p (fst (absorb raw prev md nl)) (snd (absorb raw prev md nl)).
Proof.
  intros Hraw (Hf & Hu & Hl & Hn & Hnl).
  pose proof (forallb_strip raw Hraw) as Hs.
  pose proof (fun old => forallb_strip _ (forallb_replace (strip raw) old Hs))
    as Hr.
  pose proof (fun x => Forall_snoc (fun l => forallb p l = true) nl x Hnl)
    as Fs.
  unfold absorb, state_chars.
  repeat match goal with
         | |- context [if ?b then _ else _] => destruct b
         | |- context [match ?o with Some _ => _ | None => _ end] => destruct o
         end;
    cbn [fst snd set_units set_frequency set_last_updated
         md_frequency md_units md_last_updated md_notes];
    repeat split; auto.
Qed.

Lemma lookahead_chars (lines : list str) (i j j' : nat)
    (md md' : Metadata) (nl nl' : list str) (fuel : nat) :
  Forall (fun l => forallb p l = true) lines ->
  j <= length lines ->
  length lines - j < fuel ->
  state_chars p md nl ->
  lookahead fuel lines i j md nl = Done (j', md', nl') ->
  state_chars p md' nl'.
Proof.
  intros Hlines Hj Hfuel Hgood Hrun.
  rewrite Forall_forall in Hlines.
  assert (Hstep : forall k raw m n m1 n1,
             nth_error lines k = Some raw -> state_chars p m n ->
             step raw (nth_error lines (k + 1)) (previous_line lines i k) m n
               = Some (m1, n1) ->
             state_chars p m1 n1).
  { intros k raw m n m1 n1 Hraw Hg Hstep.
    unfold step in Hstep.
    destruct (stops raw (nth_error lines (k + 1))); [discriminate|].
    injection Hstep as Hstep.
    pose proof (absorb_chars raw (previous_line lines i k) m n
                  (Hlines raw (nth_error_In _ _ Hraw)) Hg) as Ha.
    rewrite Hstep in Ha. exact Ha. }
  destruct (lookahead_rule lines i (fun _ m n => state_chars p m n) Hstep
              fuel j md nl Hj Hfuel Hgood)
    as (j1 & md1 & nl1 & Hrun1 & _ & Hinv & _).
  rewrite Hrun in Hrun1. injection Hrun1 as <- <- <-. exact Hinv.
Qed.

Lemma match_series_chars (s g1 g2 : str) :
  forallb p s = true ->
  match_series s = Some (g1, g2) ->
  forallb p g1 = true /\ forallb p g2 = true.
Proof.
  intros Hs Hm.
  destruct (match_series_shape s g1 g2 Hm) as (ds & rest & E & _).
  rewrite E in Hs. rewrite !forallb_app in Hs.
  repeat (apply andb_true_iff in Hs; destruct Hs as [? Hs]).
  split; assumption.
Qed.

Lemma record_at_chars (lines : list str) (k : nat) (r : SeriesRecord) :
  p " "%char = true ->
  Forall (fun l => forallb p l = true) lines ->
  In r (record_at lines k) ->
  record_chars p r.
Proof.
  intros Hsp Hlines Hr.
  destruct (in_record_at lines k r Hr)
    as (raw & g1 & g2 & j & md & nl & Hk & Hm & Hrun & ->).
  assert (Hlt : k < length lines) by (apply nth_error_Some; congruence).
  assert (Hraw : forallb p raw = true).
  { rewrite Forall_forall in Hlines. apply Hlines.
    apply (nth_error_In _ _ Hk). }
  destruct (match_series_chars (strip raw) g1 g2 (forallb_strip raw Hraw) Hm)
    as [Hg1 Hg2].
  assert (Hgood : state_chars p md nl).
  { apply (lookahead_chars lines k (k + 1) j empty_metadata md [] nl
             (length lines) Hlines); [lia | lia | | exact Hrun].
    repeat split; constructor. }
  destruct Hgood as (Hf & Hu & Hl & Hn & Hnl).
  unfold finish_record, record_chars.
  destruct nl as [|n nl];
    cbn [is_empty negb make_record set_notes series_id title frequency units
         last_updated notes md_frequency md_units md_last_updated md_notes];
    repeat split; auto using forallb_strip.
  apply forallb_strip, forallb_join; [|exact Hnl].
  unfold lit. cbn [list_ascii_of_string forallb]. rewrite Hsp. reflexivity.
Qed.

End CharClass.

Lemma split_no_newline (s : str) :
  Forall (fun l => no_newline l = true) (split s newline).
Proof.
  induction s as [|c s IH]; cbn [split].
  - repeat constructor.
  - destruct (Ascii.eqb c newline) eqn:Ec.
    + constructor; [reflexivity | exact IH].
    + destruct (split s newline) as [|l ls]; [repeat constructor|].
      * unfold no_newline, is_dot_char. cbn [forallb]. rewrite Ec. reflexivity.
      * inversion IH as [|? ? Hl Hls]. subst. constructor; [|exact Hls].
        unfold no_newline, is_dot_char in *. cbn [forallb].
        rewrite Ec. exact Hl.
Qed.

Lemma record_characters_from_lines_helper (p : ascii -> bool)
    (lines : list str) (stem : str) (q : ParsedResult) (r : SeriesRecord) :
  p " "%char = true ->
  Forall (fun l => forallb p l = true) lines ->
  parse_lines lines stem = Done q ->
  In r (results_of q) ->
  record_chars p r.
Proof.
  intros Hsp Hlines Hq Hin.
  destruct (in_results lines stem q r Hq Hin) as (k & _ & Hr).
  apply (record_at_chars p lines k r Hsp Hlines Hr).
Qed.

(** Every string of every record is made of characters of the document's
    lines and of the space that joins notes: whatever class of characters
    contains the space and all characters of all lines contains all
    characters of all six fields. *)
Theorem record_characters_from_lines (p : ascii -> bool)
    (lines : list str) (stem : str) (q : ParsedResult) (r : SeriesRecord) :
  p " "%char = true ->
  Forall (fun l => forallb p l = true) lines ->
  parse_lines lines stem = Done q ->
  In r (results_of q) ->
  record_chars p r.
Proof.
  exact (record_characters_from_lines_helper p lines stem q r).
Qed.

Lemma record_characters_from_lines_witness :
  record_chars (fun c => negb (Ascii.eqb c "|"%char))
    (mkSeriesRecord (lit "ABC") (lit "Title") [] (lit "Percent") []
       (lit "one two")).
Proof.
  apply (record_characters_from_lines (fun c => negb (Ascii.eqb c "|"%char))
           [lit "1. ABC - Title"; lit " Notes: one"; lit "two";
            lit " Units: Percent"]
           (lit "stem")
           (WithCount (lit "stem") 1
              [mkSeriesRecord (lit "ABC") (lit "Title") [] (lit "Percent") []
                 (lit "one two")])).
  - reflexivity.
  - repeat constructor.
  - vm_compute. reflexivity.
  - left. reflexivity.
Defined.

(** ** The shape of a record read from a file *)

Lemma in_lstrip (c : ascii) (s : str) :
  In c s -> isspace c = false -> In c (lstrip s).
Proof.
  intros Hin Hc. induction s as [|a s IH]; [destruct Hin|].
  cbn [lstrip]. destruct (isspace a) eqn:Ea; [|exact Hin].
  destruct Hin as [-> | Hin]; [congruence | apply IH, Hin].
Qed.

Lemma in_strip (c : ascii) (s : str) :
  In c s -> isspace c = false -> In c (strip s).
Proof.
  intros Hin Hc. unfold strip, rstrip.
  apply in_rev. rewrite rev_involutive.
  apply in_lstrip; [|exact Hc].
  apply -> in_rev. apply in_lstrip; assumption.
Qed.

Lemma span_stop (p : ascii -> bool) (s a b : str) :
  span p s = (a, b) ->
  match b with [] => True | c :: _ => p c = false end.
Proof.
  revert a b. induction s as [|c s IH]; intros a b; cbn [span].
  - intros H. injection H as <- <-. exact I.
  - destruct (p c) eqn:Ec.
    + destruct (span p s) as [a' b'] eqn:E. intros H. injection H as <- <-.
      apply (IH a' b' eq_refl).
    + intros H. injection H as <- <-. exact Ec.
Qed.

(** On a line without a line feed, group 2 runs to the end of the line. *)
Lemma match_series_to_end (s g1 g2 : str) :
  no_newline s = true ->
  match_series s = Some (g1, g2) ->
  exists front, s = front ++ g2 /\ g1 <> [] /\ g2 <> [] /\
                forallb is_id_char g1 = true.
Proof.
  intros Hs. unfold match_series.
  destruct (span isdigit s) as [ds r1] eqn:E1.
  destruct (is_empty ds) eqn:Eds; [discriminate|].
  destruct (startswith r1 (lit ". ")) eqn:Es1; [|discriminate].
  cbn [negb].
  destruct (span is_id_char (skipn 2 r1)) as [h1 r2] eqn:E2.
  destruct (is_empty h1) eqn:Eh1; [discriminate|].
  destruct (startswith r2 (lit " - ")) eqn:Es2; [|discriminate].
  cbn [negb].
  destruct (span is_dot_char (skipn 3 r2)) as [h2 r3] eqn:E3.
  destruct (is_empty h2) eqn:Eh2; [discriminate|].
  intros H. injection H as <- <-.
  pose proof (span_stop _ _ _ _ E3) as Hstop.
  apply span_spec in E1, E2, E3.
  destruct E1 as [-> Hds], E2 as [Hr1 Hh1], E3 as [Hr2 Hh2].
  apply startswith_app in Es1, Es2.
  change (length (lit ". ")) with 2 in Es1.
  change (length (lit " - ")) with 3 in Es2.
  assert (E : ds ++ r1 = (ds ++ lit ". " ++ h1 ++ lit " - ") ++ h2 ++ r3).
  { rewrite Es1, Hr1, Es2, Hr2. rewrite <- !app_assoc. reflexivity. }
  assert (Hr3 : r3 = []).
  { destruct r3 as [|c r3]; [reflexivity|].
    unfold no_newline in Hs. rewrite E in Hs. rewrite !forallb_app in Hs.
    apply andb_true_iff in Hs. destruct Hs as [_ Hs].
    apply andb_true_iff in Hs. destruct Hs as [_ Hs].
    cbn [forallb] in Hs. rewrite Hstop in Hs. discriminate. }
  subst r3. rewrite app_nil_r in E.
  exists (ds ++ lit ". " ++ h1 ++ lit " - ").
  split; [exact E|].
  repeat split; try assumption; intros ->; discriminate.
Qed.

Lemma title_not_empty (raw g1 g2 : str) :
  no_newline raw = true ->
  match_series (strip raw) = Some (g1, g2) ->
  strip g2 <> [].
Proof.
  intros Hraw Hm.
  destruct (match_series_to_end (strip raw) g1 g2
              (forallb_strip is_dot_char raw Hraw) Hm)
    as (front & E & _ & Hg2 & _).
  pose proof (strip_trimmed raw) as Ht.
  unfold trimmed in Ht. apply andb_true_iff in Ht. destruct Ht as [_ Ht].
  rewrite E, rev_app_distr in Ht.
  destruct (rev g2) as [|c r] eqn:Er.
  { apply (f_equal (@rev ascii)) in Er. rewrite rev_involutive in Er.
    cbn in Er. congruence. }
  cbn [app] in Ht. apply negb_true_iff in Ht.
  assert (Hin : In c g2).
  { apply in_rev. rewrite Er. left. reflexivity. }
  intros Hempty. pose proof (in_strip c g2 Hin Ht) as Hc.
  rewrite Hempty in Hc. destruct Hc.
Qed.

(** Every record read from a file has an id that is a non-empty string of
    upper-case letters and digits, a non-empty title, and no line feed in
    any of its six strings. *)
Theorem file_record_shape (stem content : str) (q : ParsedResult)
    (r : SeriesRecord) :
  parse_search_result_file stem content = Done q ->
  In r (results_of q) ->
  series_id r <> [] /\
  forallb is_id_char (series_id r) = true /\
  title r <> [] /\
  record_chars is_dot_char r.
Proof.
  unfold parse_search_result_file. intros Hq Hin.
  pose proof (split_no_newline (strip content)) as Hlines.
  assert (Hchars : record_chars is_dot_char r).
  { apply (record_characters_from_lines_helper is_dot_char
             (split (strip content) newline) stem q r);
      [reflexivity | exact Hlines | exact Hq | exact Hin]. }
  destruct (in_results _ stem q r Hq Hin) as (k & _ & Hr).
  destruct (in_record_at _ k r Hr)
    as (raw & g1 & g2 & j & md & nl & Hk & Hm & _ & ->).
  assert (Hraw : no_newline raw = true).
  { rewrite Forall_forall in Hlines. apply Hlines, (nth_error_In _ _ Hk). }
  destruct (match_series_to_end (strip raw) g1 g2
              (forallb_strip is_dot_char raw Hraw) Hm)
    as (_ & _ & Hg1 & _ & Fg1).
  split; [|split; [|split]]; [ | | | exact Hchars];
    unfold finish_record; cbn [make_record series_id title];
    rewrite ?(trimmed_strip g1 (id_chars_trimmed g1 Fg1)).
  - exact Hg1.
  - exact Fg1.
  - apply (title_not_empty raw g1 g2 Hraw Hm).
Qed.

Lemma file_record_shape_witness :
  series_id (mkSeriesRecord (lit "ABC") (lit "Title") [] [] [] []) <> [] /\
  forallb is_id_char
    (series_id (mkSeriesRecord (lit "ABC") (lit "Title") [] [] [] [])) = true /\
  title (mkSeriesRecord (lit "ABC") (lit "Title") [] [] [] []) <> [] /\
  record_chars is_dot_char
    (mkSeriesRecord (lit "ABC") (lit "Title") [] [] [] []).
Proof.
  apply (file_record_shape (lit "stem") (lit "1. ABC - Title")
           (WithCount (lit "stem") 1
              [mkSeriesRecord (lit "ABC") (lit "Title") [] [] [] []])).
  - vm_compute. reflexivity.
  - left. reflexivity.
Defined.

(** * The Markdown rendering *)

Import MarkdownOutput.

(** ** Escaping *)

Lemma escape_cons (c : ascii) (t : str) :
  _escape_markdown (c :: t) =
  (if Ascii.eqb c "|"%char then lit "\|" else [c]) ++ _escape_markdown t.
Proof.
  unfold _escape_markdown, replace. cbn [replace_from].
  unfold lit at 1. cbn [list_ascii_of_string startswith].
  rewrite Ascii.eqb_sym.
  destruct (Ascii.eqb c "|"%char); reflexivity.
Qed.

Lemma escape_nil : _escape_markdown [] = [].
Proof. reflexivity. Qed.

Lemma escape_app (a b : str) :
  _escape_markdown (a ++ b) = _escape_markdown a ++ _escape_markdown b.
Proof.
  induction a as [|c a IH]; [reflexivity|].
  cbn [app]. rewrite !escape_cons, IH, app_assoc. reflexivity.
Qed.

Lemma escape_no_bare_pipe (b : bool) (t : str) :
  bare_pipes_from b (_escape_markdown t) = 0.
Proof.
  revert b. induction t as [|c t IH]; intros b; [reflexivity|].
  rewrite escape_cons.
  destruct (Ascii.eqb c "|"%char) eqn:Ec.
  - unfold lit. cbn [list_ascii_of_string app bare_pipes_from].
    cbn. apply IH.
  - cbn [app bare_pipes_from]. rewrite Ec. cbn [andb]. apply IH.
Qed.

(** Every pipe in an escaped text stands right after a backslash. *)
Theorem escape_markdown_no_bare_pipe (text : str) :
  bare_pipes (_escape_markdown text) = 0.
Proof.
  apply escape_no_bare_pipe.
Qed.

Lemma escape_not_pipe_first (t : str) :
  startswith (_escape_markdown t) (lit "|") = false.
Proof.
  destruct t as [|c t]; [reflexivity|].
  rewrite escape_cons.
  destruct (Ascii.eqb c "|"%char) eqn:Ec; [reflexivity|].
  unfold lit. cbn [list_ascii_of_string app startswith].
  rewrite Ascii.eqb_sym, Ec. reflexivity.
Qed.

(** Escaping loses nothing: replacing every backslash-pipe of the escaped
    text by a pipe gives the text back. *)
Theorem escape_markdown_round_trip (text : str) :
  replace (_escape_markdown text) (lit "\|") (lit "|") = text.
Proof.
  induction text as [|c t IH]; [reflexivity|].
  rewrite escape_cons.
  destruct (Ascii.eqb c "|"%char) eqn:Ec.
  - apply Ascii.eqb_eq in Ec. subst c.
    unfold replace in *. unfold lit at 1.
    cbn [list_ascii_of_string app replace_from].
    change (startswith ("\"%char :: "|"%char :: _escape_markdown t) (lit "\|"))
      with true.
    cbn iota. change (length (lit "\|") - 1) with 1.
    cbn [replace_from]. unfold lit at 1.
    cbn [list_ascii_of_string app]. f_equal. exact IH.
  - unfold replace in *. cbn [app replace_from].
    assert (Hs : startswith (c :: _escape_markdown t) (lit "\|") = false).
    { unfold lit. cbn [list_ascii_of_string startswith].
      destruct (Ascii.eqb "\"%char c); [|reflexivity].
      cbn [andb].
      pose proof (escape_not_pipe_first t) as Hp.
      unfold lit in Hp. cbn [list_ascii_of_string] in Hp.
      destruct (_escape_markdown t) as [|x e]; [reflexivity|].
      cbn [startswith] in *. exact Hp. }
    rewrite Hs. f_equal. exact IH.
Qed.

(** ** Table rows *)

Lemma bare_pipes_after_escape (b : bool) (t rest : str) :
  bare_pipes_from b (_escape_markdown t ++ " "%char :: rest)
  = bare_pipes_from false rest.
Proof.
  revert b. induction t as [|c t IH]; intros b.
  - rewrite escape_nil. reflexivity.
  - rewrite escape_cons.
    destruct (Ascii.eqb c "|"%char) eqn:Ec.
    + unfold lit. cbn [list_ascii_of_string app bare_pipes_from].
      rewrite IH. reflexivity.
    + cbn [app bare_pipes_from]. rewrite Ec, IH. reflexivity.
Qed.

(** Whatever the six strings of a record contain, its table row has
    exactly seven pipes that do not stand right after a backslash: the
    seven that delimit the six cells. *)
Theorem table_row_seven_pipes (item : SeriesRecord) :
  bare_pipes (table_row item) = 7.
Proof.
  unfold bare_pipes, table_row. unfold lit.
  cbn [list_ascii_of_string app].
  cbn [bare_pipes_from]. cbn [Ascii.eqb Bool.eqb andb negb Nat.add].
  repeat (rewrite bare_pipes_after_escape;
          cbn [bare_pipes_from Ascii.eqb Bool.eqb andb negb Nat.add]).
  reflexivity.
Qed.

(** ** Lines of a rendered section *)

Lemma split_line (x : str) :
  no_newline x = true -> split x newline = [x].
Proof.
  induction x as [|c x IH]; [reflexivity|].
  unfold no_newline. cbn [forallb]. intros H.
  apply andb_true_iff in H. destruct H as [Hc Hx].
  unfold is_dot_char in Hc. apply negb_true_iff in Hc.
  cbn [split]. rewrite Hc, (IH Hx). reflexivity.
Qed.

Lemma split_line_app (x rest : str) :
  no_newline x = true ->
  split (x ++ newline :: rest) newline = x :: split rest newline.
Proof.
  induction x as [|c x IH].
  - intros _. cbn [app split]. rewrite Ascii.eqb_refl. reflexivity.
  - unfold no_newline. cbn [forallb]. intros H.
    apply andb_true_iff in H. destruct H as [Hc Hx].
    unfold is_dot_char in Hc. apply negb_true_iff in Hc.
    cbn [app split]. rewrite Hc, (IH Hx). reflexivity.
Qed.

(** Joining lines that hold no line feed and splitting at the line feed
    gives the lines back. *)
Lemma split_join (ls : list str) :
  ls <> [] ->
  Forall (fun l => no_newline l = true) ls ->
  split (join [newline] ls) newline = ls.
Proof.
  intros Hne Hall. induction Hall as [|x ls Hx Hall IH]; [congruence|].
  cbn [join]. destruct ls as [|y ls].
  - apply split_line, Hx.
  - cbn [app]. rewrite (split_line_app x _ Hx). f_equal.
    apply IH. discriminate.
Qed.

Lemma uint_no_newline (d : Decimal.uint) :
  no_newline (list_ascii_of_string (DecimalString.NilEmpty.string_of_uint d))
  = true.
Proof.
  induction d; cbn [DecimalString.NilEmpty.string_of_uint
                    list_ascii_of_string]; try reflexivity;
    unfold no_newline in *; cbn [forallb]; rewrite IHd; reflexivity.
Qed.

Lemma str_of_nat_no_newline (n : nat) : no_newline (str_of_nat n) = true.
Proof.
  apply uint_no_newline.
Qed.

Lemma escape_no_newline (t : str) :
  no_newline t = true -> no_newline (_escape_markdown t) = true.
Proof.
  unfold no_newline. induction t as [|c t IH]; [reflexivity|].
  cbn [forallb]. intros H. apply andb_true_iff in H. destruct H as [Hc Ht].
  rewrite escape_cons, forallb_app, (IH Ht).
  destruct (Ascii.eqb c "|"%char); [reflexivity|].
  cbn [forallb]. rewrite Hc. reflexivity.
Qed.

Lemma table_row_no_newline (item : SeriesRecord) :
  record_chars is_dot_char item ->
  no_newline (table_row item) = true.
Proof.
  intros (H1 & H2 & H3 & H4 & H5 & H6).
  assert (H6' : no_newline (or_empty (notes item)) = true).
  { unfold or_empty. destruct (is_empty (notes item)); [reflexivity | exact H6]. }
  pose proof (escape_no_newline _ H1) as E1.
  pose proof (escape_no_newline _ H2) as E2.
  pose proof (escape_no_newline _ H3) as E3.
  pose proof (escape_no_newline _ H4) as E4.
  pose proof (escape_no_newline _ H5) as E5.
  pose proof (escape_no_newline _ H6') as E6.
  unfold table_row, no_newline in *.
  rewrite !forallb_app, E1, E2, E3, E4, E5, E6.
  reflexivity.
Qed.

Lemma fold_rows (results : list SeriesRecord) (lines : list str) :
  fold_left (fun acc item => acc ++ [table_row item]) results lines
  = lines ++ map table_row results.
Proof.
  revert lines. induction results as [|r rs IH]; intros lines.
  - cbn. rewrite app_nil_r. reflexivity.
  - cbn [fold_left map]. rewrite IH, <- app_assoc. reflexivity.
Qed.

Lemma rendered_lines_rows (query : str) (n : nat)
    (results : list SeriesRecord) :
  rendered_lines query n results =
  [lit "## " ++ query; lit "Total results: " ++ str_of_nat n; []]
  ++ match results with
     | [] => [lit "_No series found._"; []]
     | _ :: _ =>
         [lit "| ID | Title | Frequency | Units | Last Updated | Notes |";
          lit "| --- | --- | --- | --- | --- | --- |"]
         ++ map table_row results ++ [[]]
     end.
Proof.
  unfold rendered_lines. destruct results as [|r rs]; [reflexivity|].
  cbn [is_empty]. rewrite fold_rows, <- !app_assoc. reflexivity.
Qed.

Lemma rendered_lines_no_newline (query : str) (n : nat)
    (results : list SeriesRecord) :
  no_newline query = true ->
  Forall (record_chars is_dot_char) results ->
  Forall (fun l => no_newline l = true) (rendered_lines query n results).
Proof.
  intros Hq Hr. rewrite rendered_lines_rows.
  apply Forall_app. split.
  - repeat constructor.
    + unfold no_newline in *. rewrite forallb_app, Hq. reflexivity.
    + unfold no_newline. rewrite forallb_app.
      pose proof (str_of_nat_no_newline n) as Hn. unfold no_newline in Hn.
      rewrite Hn. reflexivity.
  - destruct results as [|r rs]; [repeat constructor|].
    apply Forall_app. split; [repeat constructor|].
    apply Forall_app. split; [|repeat constructor].
    apply Forall_map. eapply Forall_impl; [|exact Hr].
    intros a Ha. apply table_row_no_newline, Ha.
Qed.

Lemma find_query_chars (p : ascii -> bool) (lines : list str) (stem : str) :
  forallb p stem = true ->
  Forall (fun l => forallb p l = true) lines ->
  forallb p (find_query lines stem) = true.
Proof.
  intros Hs Hl. induction Hl as [|l ls Hx _ IH]; [exact Hs|].
  cbn [find_query]. destruct (startswith l (lit "Query: ")); [|exact IH].
  apply forallb_strip, forallb_replace, Hx.
Qed.

Lemma Forall_firstn (P : str -> Prop) (n : nat) (l : list str) :
  Forall P l -> Forall P (firstn n l).
Proof.
  intros H. revert n. induction H as [|x l Hx _ IH]; intros n.
  - destruct n; constructor.
  - destruct n; [constructor|]. cbn [firstn]. constructor; auto.
Qed.

Lemma markdown_parser_copy (stem content : str) :
  ConvertSearchResultsMarkdown.parse_search_result_file stem content
  = parse_search_result_file stem content.
Proof.
  unfold ConvertSearchResultsMarkdown.parse_search_result_file,
    parse_search_result_file,
    ConvertSearchResultsMarkdown.parse_lines, parse_lines.
  rewrite find_query_copy, scan_copy. reflexivity.
Qed.

(** What the parser returns for a source file. *)
Lemma parsed_file (f : SourceFile) :
  parse_search_result_file (file_stem f) (file_text f) = Done (parsed f) /\
  parsed f = WithCount (label f) (length (results_of (parsed f)))
               (results_of (parsed f)).
Proof.
  unfold label, parsed, parse_search_result_file.
  rewrite parse_lines_records by apply split_nonempty.
  split; reflexivity.
Qed.

Lemma parsed_no_newline (f : SourceFile) :
  no_newline (file_stem f) = true ->
  no_newline (label f) = true /\
  Forall (record_chars is_dot_char) (results_of (parsed f)).
Proof.
  intros Hs. destruct (parsed_file f) as [Hp _].
  pose proof (split_no_newline (strip (file_text f))) as Hlines.
  split.
  - unfold label, parsed, parse_search_result_file.
    rewrite parse_lines_records by apply split_nonempty.
    cbn [query_of]. apply find_query_chars; [exact Hs|].
    apply Forall_firstn, Hlines.
  - apply Forall_forall. intros r Hr.
    apply (record_characters_from_lines_helper is_dot_char
             (split (strip (file_text f)) newline) (file_stem f) (parsed f) r);
      [reflexivity | exact Hlines | exact Hp | exact Hr].
Qed.

Lemma render_parsed (f : SourceFile) :
  _render_query_markdown (label f) (parsed f) = Ret (section_text f).
Proof.
  destruct (parsed_file f) as [_ Hp].
  unfold _render_query_markdown, section_text. rewrite Hp at 1 2.
  reflexivity.
Qed.

(** Rendering what the parser returns never raises, and the rendered
    section is, line by line, the two heading lines, an empty line, and
    then either the no-series line or the two table heading lines and one
    row per record, in order; an empty line ends it.  No record is spread
    over two lines. *)
Theorem rendered_section_lines (stem content : str) :
  no_newline stem = true ->
  exists data text,
    ConvertSearchResultsMarkdown.parse_search_result_file stem content
      = Done data /\
    _render_query_markdown (query_of data) data = Ret text /\
    split text newline =
    [lit "## " ++ query_of data;
     lit "Total results: " ++ str_of_nat (length (results_of data)); []]
    ++ match results_of data with
       | [] => [lit "_No series found._"; []]
       | _ :: _ =>
           [lit "| ID | Title | Frequency | Units | Last Updated | Notes |";
            lit "| --- | --- | --- | --- | --- | --- |"]
           ++ map table_row (results_of data) ++ [[]]
       end.
Proof.
  intros Hs. set (f := mkSourceFile stem content).
  destruct (parsed_file f) as [Hp _].
  destruct (parsed_no_newline f Hs) as [Hq Hr].
  exists (parsed f), (section_text f).
  rewrite markdown_parser_copy.
  split; [exact Hp|]. split; [apply render_parsed|].
  unfold section_text.
  rewrite split_join.
  - apply rendered_lines_rows.
  - rewrite rendered_lines_rows. discriminate.
  - apply rendered_lines_no_newline; assumption.
Qed.

Lemma rendered_section_lines_witness :
  exists data text,
    ConvertSearchResultsMarkdown.parse_search_result_file (lit "gdp")
      (lit "Query: gdp") = Done data /\
    _render_query_markdown (query_of data) data = Ret text /\
    split text newline =
    [lit "## " ++ query_of data;
     lit "Total results: " ++ str_of_nat (length (results_of data)); []]
    ++ match results_of data with
       | [] => [lit "_No series found._"; []]
       | _ :: _ =>
           [lit "| ID | Title | Frequency | Units | Last Updated | Notes |";
            lit "| --- | --- | --- | --- | --- | --- |"]
           ++ map table_row (results_of data) ++ [[]]
       end.
Proof.
  apply (rendered_section_lines (lit "gdp") (lit "Query: gdp")).
  reflexivity.
Defined.

(** * The converters' loops *)

(** ** Dictionaries *)

Lemma str_eqb_eq (a b : str) : str_eqb a b = true <-> a = b.
Proof.
  unfold str_eqb. destruct (list_eq_dec ascii_dec a b); split;
    congruence.
Qed.

Lemma str_eqb_refl (a : str) : str_eqb a a = true.
Proof.
  apply str_eqb_eq. reflexivity.
Qed.

Lemma str_eqb_neq (a b : str) : str_eqb a b = false <-> a <> b.
Proof.
  unfold str_eqb. destruct (list_eq_dec ascii_dec a b); split;
    congruence.
Qed.

Section Dict.

Variable V : Type.

Lemma dict_get_set (d : dict V) (k k' : str) (v : V) :
  dict_get (dict_set d k v) k' =
  if str_eqb k k' then Some v else dict_get d k'.
Proof.
  induction d as [|[k0 v0] d IH]; cbn [dict_set dict_get].
  - reflexivity.
  - destruct (str_eqb k0 k) eqn:E0.
    + apply str_eqb_eq in E0. subst k0. cbn [dict_get].
      destruct (str_eqb k k'); reflexivity.
    + cbn [dict_get]. rewrite IH.
      destruct (str_eqb k0 k') eqn:E1; [|reflexivity].
      apply str_eqb_eq in E1. subst k0.
      apply str_eqb_neq in E0.
      destruct (str_eqb k k') eqn:E2; [|reflexivity].
      apply str_eqb_eq in E2. congruence.
Qed.

Lemma dict_keys_set (d : dict V) (k : str) (v : V) :
  dict_keys (dict_set d k v) =
  if in_dec (list_eq_dec ascii_dec) k (dict_keys d)
  then dict_keys d else dict_keys d ++ [k].
Proof.
  induction d as [|[k0 v0] d IH]; cbn [dict_set dict_keys map fst].
  - reflexivity.
  - destruct (str_eqb k0 k) eqn:E0.
    + apply str_eqb_eq in E0. subst k0. cbn [map fst].
      destruct (in_dec (list_eq_dec ascii_dec) k (k :: map fst d)) as [_|Hn]; [reflexivity|].
      exfalso. apply Hn. left. reflexivity.
    + apply str_eqb_neq in E0. cbn [map fst].
      change (map fst (dict_set d k v)) with (dict_keys (dict_set d k v)).
      rewrite IH. change (map fst d) with (dict_keys d).
      destruct (in_dec (list_eq_dec ascii_dec) k (dict_keys d)) as [Hi|Hn];
        destruct (in_dec (list_eq_dec ascii_dec) k (k0 :: dict_keys d)) as [Hi'|Hn'];
        try reflexivity.
      * exfalso. apply Hn'. right. exact Hi.
      * exfalso. destruct Hi' as [E|Hi']; [congruence | exact (Hn Hi')].
Qed.

Lemma dict_set_fresh (d : dict V) (k : str) (v : V) :
  ~ In k (dict_keys d) -> dict_set d k v = d ++ [(k, v)].
Proof.
  induction d as [|[k0 v0] d IH]; intros Hn; [reflexivity|].
  cbn [dict_set]. destruct (str_eqb k0 k) eqn:E0.
  - apply str_eqb_eq in E0. subst k0. exfalso. apply Hn. left. reflexivity.
  - cbn [app]. f_equal. apply IH. intros Hi. apply Hn. right. exact Hi.
Qed.

End Dict.

Lemma find_snoc (p : SourceFile -> bool) (l : list SourceFile)
    (x : SourceFile) :
  find p (l ++ [x]) =
  match find p l with
  | Some y => Some y
  | None => if p x then Some x else None
  end.
Proof.
  induction l as [|a l IH]; [reflexivity|].
  cbn [app find]. destruct (p a); [reflexivity | exact IH].
Qed.

Lemma collect_get (txt_files : list SourceFile) (d : dict ParsedResult)
    (q : str) :
  dict_get (collect txt_files d) q =
  match find (has_label q) (rev txt_files) with
  | Some f => Some (parsed f)
  | None => dict_get d q
  end.
Proof.
  revert d. induction txt_files as [|f fs IH]; intros d; [reflexivity|].
  unfold collect in *. cbn [fold_left rev]. rewrite IH.
  rewrite find_snoc.
  destruct (find (has_label q) (rev fs)) as [g|]; [reflexivity|].
  rewrite dict_get_set. unfold has_label.
  destruct (str_eqb (label f) q); reflexivity.
Qed.

Lemma collect_keys_in (txt_files : list SourceFile) (d : dict ParsedResult)
    (q : str) :
  In q (dict_keys (collect txt_files d)) <->
  In q (dict_keys d) \/ In q (map label txt_files).
Proof.
  revert d. induction txt_files as [|f fs IH]; intros d.
  - cbn. tauto.
  - unfold collect in *. cbn [fold_left map]. rewrite IH, dict_keys_set.
    destruct (in_dec (list_eq_dec ascii_dec) (label f) (dict_keys d)) as [Hi|Hn].
    + split; [intros [H|H]; auto; right; right; exact H|].
      intros [H|[H|H]]; auto. subst q. left. exact Hi.
    + rewrite in_app_iff. cbn [In]. tauto.
Qed.

Lemma collect_keys_nodup (txt_files : list SourceFile)
    (d : dict ParsedResult) :
  NoDup (dict_keys d) -> NoDup (dict_keys (collect txt_files d)).
Proof.
  revert d. induction txt_files as [|f fs IH]; intros d Hd; [exact Hd|].
  unfold collect in *. cbn [fold_left]. apply IH.
  rewrite dict_keys_set.
  destruct (in_dec (list_eq_dec ascii_dec) (label f) (dict_keys d)) as [Hi|Hn]; [exact Hd|].
  apply NoDup_app; [exact Hd | repeat constructor; intros [] |].
  intros x Hx [<- | []]. exact (Hn Hx).
Qed.

Lemma collect_distinct (txt_files : list SourceFile)
    (d : dict ParsedResult) :
  NoDup (dict_keys d ++ map label txt_files) ->
  collect txt_files d = d ++ map (fun f => (label f, parsed f)) txt_files.
Proof.
  revert d. induction txt_files as [|f fs IH]; intros d Hd.
  - cbn. rewrite app_nil_r. reflexivity.
  - unfold collect in *. cbn [fold_left map].
    assert (Hn : ~ In (label f) (dict_keys d)).
    { cbn [map] in Hd. apply NoDup_remove_2 in Hd.
      intros Hi. apply Hd, in_or_app. left. exact Hi. }
    rewrite (dict_set_fresh _ d (label f) (parsed f) Hn).
    rewrite IH.
    + rewrite <- app_assoc. reflexivity.
    + unfold dict_keys. rewrite map_app. cbn [map fst].
      rewrite <- app_assoc. exact Hd.
Qed.

Lemma total_series_sum (d : dict ParsedResult) :
  total_series d = list_sum (map (fun kv => length (results_of (snd kv))) d).
Proof.
  unfold total_series, dict_values.
  assert (H : forall l acc,
             fold_left (fun a x => a + length (results_of x))
               (map snd l) acc
             = acc + list_sum (map (fun kv : str * ParsedResult =>
                                      length (results_of (snd kv))) l)).
  { induction l as [|kv l IH]; intros acc;
      cbn [map fold_left list_sum fold_right].
    - lia.
    - rewrite IH. unfold list_sum. lia. }
  rewrite H. reflexivity.
Qed.

(** ** The Markdown converter *)

Lemma markdown_loop_body (flag : bool) (st : MarkdownOutput.LoopState)
    (f : SourceFile) :
  MarkdownOutput.loop_body flag st f =
  Ret (MarkdownOutput.mkLoopState
         (consolidated_sections st ++ [section_text f])
         (dict_set (MarkdownOutput.loop_all_data st) (label f) (parsed f))
         (MarkdownOutput.loop_individual st
            ++ if flag then [(file_stem f, individual_text f)] else [])).
Proof.
  unfold MarkdownOutput.loop_body.
  rewrite markdown_parser_copy.
  destruct (parsed_file f) as [Hp _]. rewrite Hp.
  cbn [of_outcome rbind].
  change (query_of (parsed f)) with (label f).
  rewrite render_parsed. cbn [rbind].
  destruct flag; [reflexivity|]. rewrite app_nil_r. reflexivity.
Qed.

Lemma markdown_loop (flag : bool) (txt_files : list SourceFile)
    (st : MarkdownOutput.LoopState) :
  MarkdownOutput.loop flag txt_files st =
  Ret (MarkdownOutput.mkLoopState
         (consolidated_sections st ++ map section_text txt_files)
         (collect txt_files (MarkdownOutput.loop_all_data st))
         (MarkdownOutput.loop_individual st
            ++ if flag
               then map (fun f => (file_stem f, individual_text f)) txt_files
               else [])).
Proof.
  revert st. induction txt_files as [|f fs IH]; intros st.
  - cbn [MarkdownOutput.loop map]. destruct st, flag; cbn;
      rewrite !app_nil_r; reflexivity.
  - cbn [MarkdownOutput.loop]. rewrite markdown_loop_body. cbn [rbind].
    rewrite IH.
    cbn [consolidated_sections MarkdownOutput.loop_all_data
         MarkdownOutput.loop_individual map].
    rewrite <- !app_assoc. destruct flag; reflexivity.
Qed.

Lemma markdown_convert_writes_helper (input_dir_exists : bool)
    (txt_files : list SourceFile) (individual_markdown : bool) :
  MarkdownOutput.convert_all_search_results input_dir_exists txt_files
    individual_markdown =
  Ret (if negb input_dir_exists || is_empty txt_files then None
       else Some (MarkdownOutput.mkWritten
                    (join [newline]
                       (lit "# FRED Search Results"
                        :: map section_text txt_files))
                    (if individual_markdown
                     then map (fun f => (file_stem f, individual_text f))
                            txt_files
                     else [])
                    (collect txt_files []))) /\
  forall f, In f txt_files ->
            _render_query_markdown (label f) (parsed f)
            = Ret (section_text f).
Proof.
  split; [|intros f _; apply render_parsed].
  unfold MarkdownOutput.convert_all_search_results.
  destruct (negb input_dir_exists); [reflexivity|].
  destruct (is_empty txt_files) eqn:E; [reflexivity|].
  rewrite markdown_loop. reflexivity.
Qed.

(** The Markdown converter never raises.  It writes nothing when the
    directory is missing or holds no text file; otherwise the consolidated
    file is the title followed by one rendered section per file, in the
    order of the files, also for files that share a query label, and with
    [individual_markdown] every file gets its own document. *)
Theorem markdown_convert_writes (input_dir_exists : bool)
    (txt_files : list SourceFile) (individual_markdown : bool) :
  MarkdownOutput.convert_all_search_results input_dir_exists txt_files
    individual_markdown =
  Ret (if negb input_dir_exists || is_empty txt_files then None
       else Some (MarkdownOutput.mkWritten
                    (join [newline]
                       (lit "# FRED Search Results"
                        :: map section_text txt_files))
                    (if individual_markdown
                     then map (fun f => (file_stem f, individual_text f))
                            txt_files
                     else [])
                    (collect txt_files []))) /\
  forall f, In f txt_files ->
            _render_query_markdown (label f) (parsed f)
            = Ret (section_text f).
Proof.
  exact (markdown_convert_writes_helper input_dir_exists txt_files
           individual_markdown).
Qed.

(** ** The JSON converter *)

Lemma json_loop (flag : bool) (txt_files : list SourceFile)
    (st : JsonOutput.LoopState) :
  JsonOutput.loop flag txt_files st =
  Ret (JsonOutput.mkLoopState
         (collect txt_files (JsonOutput.loop_all_data st))
         (JsonOutput.loop_individual st
            ++ if flag
               then map (fun f => (file_stem f, parsed f)) txt_files
               else [])).
Proof.
  revert st. induction txt_files as [|f fs IH]; intros st.
  - cbn [JsonOutput.loop map]. destruct st, flag; cbn;
      rewrite ?app_nil_r; reflexivity.
  - cbn [JsonOutput.loop]. unfold JsonOutput.loop_body.
    destruct (parsed_file f) as [Hp _]. rewrite Hp.
    cbn [of_outcome rbind].
    change (query_of (parsed f)) with (label f).
    destruct flag; cbn [rbind]; rewrite IH;
      cbn [JsonOutput.loop_all_data JsonOutput.loop_individual map];
      rewrite <- ?app_assoc; reflexivity.
Qed.

Lemma json_convert (input_dir_exists : bool) (txt_files : list SourceFile)
    (individual_json : bool) :
  JsonOutput.convert_all_search_results input_dir_exists txt_files
    individual_json =
  Ret (if negb input_dir_exists || is_empty txt_files then None
       else Some (JsonOutput.mkWritten (collect txt_files [])
                    (if individual_json
                     then map (fun f => (file_stem f, parsed f)) txt_files
                     else []))).
Proof.
  unfold JsonOutput.convert_all_search_results.
  destruct (negb input_dir_exists); [reflexivity|].
  destruct (is_empty txt_files) eqn:E; [reflexivity|].
  rewrite json_loop. reflexivity.
Qed.

Lemma json_convert_some (input_dir_exists : bool)
    (txt_files : list SourceFile) (individual_json : bool)
    (w : JsonOutput.Written) :
  JsonOutput.convert_all_search_results input_dir_exists txt_files
    individual_json = Ret (Some w) ->
  JsonOutput.consolidated w = collect txt_files [] /\
  JsonOutput.individual w =
  (if individual_json
   then map (fun f => (file_stem f, parsed f)) txt_files else []).
Proof.
  rewrite json_convert.
  destruct (negb input_dir_exists || is_empty txt_files); [discriminate|].
  intros H. injection H as <-. split; reflexivity.
Qed.

(** The JSON converter never raises, and in the dictionary it hands to the
    consolidated file the entry under a query label is what the parser
    returned for the last file with that label: of two files with the same
    label the earlier one is lost there, although with [individual_json]
    each file still gets its own document. *)
Theorem json_consolidated_last_wins (input_dir_exists : bool)
    (txt_files : list SourceFile) (individual_json : bool) :
  exists out,
    JsonOutput.convert_all_search_results input_dir_exists txt_files
      individual_json = Ret out /\
    (out = None <-> input_dir_exists = false \/ txt_files = []) /\
    forall w, out = Some w ->
      (forall q,
          dict_get (JsonOutput.consolidated w) q =
          match find (has_label q) (rev txt_files) with
          | Some f => Some (parsed f)
          | None => None
          end) /\
      JsonOutput.individual w =
      (if individual_json
       then map (fun f => (file_stem f, parsed f)) txt_files else []) /\
      (forall f, In f txt_files ->
         parse_search_result_file (file_stem f) (file_text f)
         = Done (parsed f)).
Proof.
  eexists. split; [apply json_convert|]. split.
  - destruct input_dir_exists; cbn [negb orb].
    + destruct txt_files; cbn [is_empty]; split;
        try discriminate; try (intros [H|H]; discriminate); auto.
    + split; auto.
  - intros w Hw.
    destruct (negb input_dir_exists || is_empty txt_files); [discriminate|].
    injection Hw as <-. cbn [JsonOutput.consolidated JsonOutput.individual].
    split; [|split; [reflexivity|]].
    + intros q. rewrite collect_get. reflexivity.
    + intros f _. apply parsed_file.
Qed.

(** The number of queries either converter reports is the number of
    distinct query labels among the files, at most the number of files. *)
Theorem total_queries_distinct_labels (txt_files : list SourceFile) :
  total_queries (collect txt_files [])
  = length (nodup (list_eq_dec ascii_dec) (map label txt_files)) /\
  total_queries (collect txt_files []) <= length txt_files /\
  (forall flag w,
      JsonOutput.convert_all_search_results true txt_files flag
        = Ret (Some w) ->
      JsonOutput.consolidated w = collect txt_files []) /\
  (forall flag w,
      MarkdownOutput.convert_all_search_results true txt_files flag
        = Ret (Some w) ->
      MarkdownOutput.all_data w = collect txt_files []).
Proof.
  assert (Hlen : total_queries (collect txt_files [])
                 = length (nodup (list_eq_dec ascii_dec)
                             (map label txt_files))).
  { unfold total_queries.
    rewrite <- (length_map fst (collect txt_files [])).
    apply Permutation_length, NoDup_Permutation.
    - apply (collect_keys_nodup txt_files []). constructor.
    - apply NoDup_nodup.
    - intros q. rewrite nodup_In.
      pose proof (collect_keys_in txt_files [] q) as H.
      unfold dict_keys in H. cbn [map In] in H. tauto. }
  split; [exact Hlen|]. split.
  - rewrite Hlen.
    pose proof (NoDup_incl_length
                  (NoDup_nodup (list_eq_dec ascii_dec) (map label txt_files))
                  (l' := map label txt_files)) as H.
    rewrite length_map in H. apply H.
    intros q Hq. apply nodup_In in Hq. exact Hq.
  - split.
    + intros flag w Hw. apply (json_convert_some true txt_files flag w Hw).
    + intros flag w. rewrite (proj1 (markdown_convert_writes_helper true txt_files flag)).
      destruct (negb true || is_empty txt_files); [discriminate|].
      intros H. injection H as <-. reflexivity.
Qed.

(** ** A record-start line and its block of field lines *)

Lemma find_last (p : str -> bool) (l : list str) (x : str) :
  find p (rev (x :: l)) =
  match find p (rev l) with
  | Some y => Some y
  | None => if p x then Some x else None
  end.
Proof.
  cbn [rev]. induction (rev l) as [|a r IH]; [reflexivity|].
  cbn [app find]. destruct (p a); [reflexivity | exact IH].
Qed.

Lemma apply_field_state (x : str) (f : field) (md : Metadata)
    (nl : list str) :
  field_of x = Some f ->
  apply_field (md, nl) x =
  (match f with
   | Units => set_units md (field_text Units x)
   | Frequency => set_frequency md (field_text Frequency x)
   | LastUpdated => set_last_updated md (field_text LastUpdated x)
   | Notes => md
   end,
   nl ++ note_of x).
Proof.
  intros Hf. unfold apply_field. cbn [fst snd].
  rewrite (absorb_field x f None md nl Hf).
  unfold note_of, is_field. rewrite Hf.
  destruct f; cbn [field_update field_eqb andb];
    rewrite ?app_nil_r; try reflexivity.
  unfold field_text. cbn [field_prefix].
  destruct (negb (str_eqb _ sentinel)); [reflexivity|].
  rewrite app_nil_r. reflexivity.
Qed.

Lemma last_value_cons (g f : field) (x : str) (fs : list str)
    (default : str) :
  field_of x = Some f ->
  last_value g (x :: fs) default =
  last_value g fs (if field_eqb g f then field_text g x else default).
Proof.
  intros Ef. unfold last_value. rewrite find_last.
  assert (E : is_field g x = field_eqb g f)
    by (unfold is_field; rewrite Ef; reflexivity).
  rewrite E.
  destruct (find (is_field g) (rev fs)); [reflexivity|].
  destruct (field_eqb g f); reflexivity.
Qed.

Lemma fold_fields_state (fields : list str) :
  Forall (fun l => field_of l <> None) fields ->
  forall md nl,
    md_frequency (fst (fold_left apply_field fields (md, nl)))
      = last_value Frequency fields (md_frequency md) /\
    md_units (fst (fold_left apply_field fields (md, nl)))
      = last_value Units fields (md_units md) /\
    md_last_updated (fst (fold_left apply_field fields (md, nl)))
      = last_value LastUpdated fields (md_last_updated md) /\
    md_notes (fst (fold_left apply_field fields (md, nl))) = md_notes md /\
    snd (fold_left apply_field fields (md, nl)) = nl ++ note_texts fields.
Proof.
  induction 1 as [|x fs Hx _ IH]; intros md nl.
  - cbn. rewrite app_nil_r. repeat split; reflexivity.
  - destruct (field_of x) as [f|] eqn:Ef; [|congruence].
    cbn [fold_left]. rewrite (apply_field_state x f md nl Ef).
    rewrite !(last_value_cons _ f x fs _ Ef).
    unfold note_texts. cbn [flat_map]. rewrite app_assoc.
    destruct f; cbn [field_eqb];
      match goal with
      | |- context [fold_left apply_field fs (?m, ?n)] => exact (IH m n)
      end.
Qed.

Lemma run_block_end (post : list str) (sid ttl : str) (md : Metadata)
    (nl : list str) (prev : option str) :
  block_ends post ->
  firstn 1 (run (Inside sid ttl md nl prev) post)
  = [finish_record sid ttl md nl].
Proof.
  destruct post as [|l rest]; [reflexivity|].
  cbn [block_ends run]. intros H. unfold step. rewrite H. reflexivity.
Qed.

Lemma finish_record_block (sid ttl : str) (fields : list str) :
  Forall (fun l => field_of l <> None) fields ->
  finish_record sid ttl
    (fst (fold_left apply_field fields (empty_metadata, [])))
    (snd (fold_left apply_field fields (empty_metadata, [])))
  = block_record sid ttl fields.
Proof.
  intros Hf.
  destruct (fold_fields_state fields Hf empty_metadata [])
    as (H1 & H2 & H3 & H4 & H5).
  cbn [app] in H5.
  unfold finish_record, block_record. rewrite H5.
  destruct (note_texts fields) as [|n ns] eqn:En.
  - cbn [is_empty negb]. unfold make_record.
    rewrite H1, H2, H3, H4. reflexivity.
  - cbn [is_empty negb]. unfold make_record, set_notes.
    cbn [md_frequency md_units md_last_updated md_notes].
    rewrite H1, H2, H3. reflexivity.
Qed.

(** A record-start line followed by a block of lines that each carry one
    of the four prefixes, the block ending at the end of the document or
    at a line where the lookahead stops, yields the record whose id and
    title come from the start line, whose units, frequency and
    last-updated values are the texts of the last line with that prefix
    (empty when there is none), and whose notes are the texts of the notes
    lines other than the sentinel, joined by single spaces. *)
Theorem record_of_block (pre : list str) (start g1 g2 : str)
    (fields post : list str) :
  match_series (strip start) = Some (g1, g2) ->
  Forall (fun l => field_of l <> None) fields ->
  block_ends post ->
  record_at (pre ++ start :: fields ++ post) (length pre)
  = [block_record g1 (strip g2) fields].
Proof.
  intros Hm Hf He.
  pose proof (nth_error_middle pre start (fields ++ post)) as Hk.
  rewrite (record_at_run _ _ _ _ _ Hk Hm), skipn_middle.
  rewrite (run_field_lines fields post (strip g1) (strip g2) Hf).
  rewrite (run_block_end post _ _ _ _ _ He).
  rewrite (finish_record_block (strip g1) (strip g2) fields Hf).
  destruct (match_series_shape _ _ _ Hm) as (ds & rest & _ & _ & _ & _ & Fg1 & _).
  rewrite (trimmed_strip g1 (id_chars_trimmed g1 Fg1)). reflexivity.
Qed.

Lemma record_of_block_witness :
  record_at ([lit "Query: gdp"; lit ""] ++ lit "1. GDP - Gross Product"
             :: [lit "  Units: Dollars"; lit "  Notes: first";
                 lit "  Units: Billions"; lit "  Notes: second"]
             ++ [lit ""; lit "2. XYZ - Other"]) 2
  = [mkSeriesRecord (lit "GDP") (lit "Gross Product") [] (lit "Billions") []
       (lit "first second")].
Proof.
  apply (record_of_block [lit "Query: gdp"; lit ""]
           (lit "1. GDP - Gross Product") (lit "GDP") (lit "Gross Product")
           [lit "  Units: Dollars"; lit "  Notes: first";
            lit "  Units: Billions"; lit "  Notes: second"]
           [lit ""; lit "2. XYZ - Other"]).
  - reflexivity.
  - repeat constructor; vm_compute; discriminate.
  - reflexivity.
Defined.

(** ** White space around the text of a file *)

Lemma lstrip_spaces (ws s : str) :
  forallb isspace ws = true -> lstrip (ws ++ s) = lstrip s.
Proof.
  induction ws as [|c ws IH]; [reflexivity|].
  cbn [forallb]. intros H. apply andb_true_iff in H. destruct H as [Hc Hws].
  cbn [app lstrip]. rewrite Hc. apply IH, Hws.
Qed.

Lemma lstrip_all_spaces (ws : str) :
  forallb isspace ws = true -> lstrip ws = [].
Proof.
  intros H. rewrite <- (app_nil_r ws), (lstrip_spaces ws [] H). reflexivity.
Qed.

Lemma lstrip_app (a b : str) :
  lstrip (a ++ b) = if forallb isspace a then lstrip b else lstrip a ++ b.
Proof.
  induction a as [|c a IH]; [reflexivity|].
  cbn [app lstrip forallb]. destruct (isspace c); [exact IH | reflexivity].
Qed.

Lemma rstrip_spaces (s ws : str) :
  forallb isspace ws = true -> rstrip (s ++ ws) = rstrip s.
Proof.
  intros H. unfold rstrip. rewrite rev_app_distr.
  rewrite lstrip_spaces; [reflexivity|]. apply forallb_rev, H.
Qed.

Lemma strip_spaces (ws1 s ws2 : str) :
  forallb isspace ws1 = true ->
  forallb isspace ws2 = true ->
  strip (ws1 ++ s ++ ws2) = strip s.
Proof.
  intros H1 H2. unfold strip.
  rewrite (lstrip_spaces ws1 _ H1), lstrip_app.
  destruct (forallb isspace s) eqn:Es.
  - rewrite (lstrip_all_spaces ws2 H2), (lstrip_all_spaces s Es). reflexivity.
  - apply rstrip_spaces, H2.
Qed.

(** White space before and after the text of a file, blank lines
    included, does not change what the routine returns. *)
Theorem surrounding_space_ignored (stem ws1 content ws2 : str) :
  forallb isspace ws1 = true ->
  forallb isspace ws2 = true ->
  parse_search_result_file stem (ws1 ++ content ++ ws2)
  = parse_search_result_file stem content.
Proof.
  intros H1 H2. unfold parse_search_result_file.
  rewrite (strip_spaces ws1 content ws2 H1 H2). reflexivity.
Qed.

Lemma surrounding_space_ignored_witness :
  parse_search_result_file (lit "stem")
    ([newline; " "%char] ++ lit "1. ABC - Title" ++ [" "%char; newline; newline])
  = parse_search_result_file (lit "stem") (lit "1. ABC - Title").
Proof.
  apply (surrounding_space_ignored (lit "stem") [newline; " "%char]
           (lit "1. ABC - Title") [" "%char; newline; newline]);
    reflexivity.
Defined.

(** ** Files with distinct query labels *)

(** When no two files have the same query label, the dictionary the
    converters collect has one entry per file, in the order of the files,
    and the two totals they print are the number of files and the number
    of records of all files together. *)
Theorem distinct_labels_totals (txt_files : list SourceFile) :
  NoDup (map label txt_files) ->
  collect txt_files [] = map (fun f => (label f, parsed f)) txt_files /\
  total_queries (collect txt_files []) = length txt_files /\
  total_series (collect txt_files [])
  = list_sum (map (fun f => length (results_of (parsed f))) txt_files) /\
  (forall flag w,
      JsonOutput.convert_all_search_results true txt_files flag
        = Ret (Some w) ->
      JsonOutput.consolidated w
      = map (fun f => (label f, parsed f)) txt_files).
Proof.
  intros Hn.
  assert (Hc : collect txt_files []
               = map (fun f => (label f, parsed f)) txt_files).
  { rewrite (collect_distinct txt_files []); [reflexivity | exact Hn]. }
  split; [exact Hc|]. split; [|split].
  - unfold total_queries. rewrite Hc, length_map. reflexivity.
  - rewrite total_series_sum, Hc, map_map. reflexivity.
  - intros flag w Hw.
    rewrite (proj1 (json_convert_some true txt_files flag w Hw)). exact Hc.
Qed.

Lemma distinct_labels_totals_witness :
  collect [mkSourceFile (lit "a") (lit "Query: gdp");
           mkSourceFile (lit "b") (lit "1. ABC - Title")] []
  = map (fun f => (label f, parsed f))
      [mkSourceFile (lit "a") (lit "Query: gdp");
       mkSourceFile (lit "b") (lit "1. ABC - Title")] /\
  total_queries
    (collect [mkSourceFile (lit "a") (lit "Query: gdp");
              mkSourceFile (lit "b") (lit "1. ABC - Title")] []) = 2.
Proof.
  destruct (distinct_labels_totals
              [mkSourceFile (lit "a") (lit "Query: gdp");
               mkSourceFile (lit "b") (lit "1. ABC - Title")])
    as (H1 & H2 & _).
  - repeat constructor; vm_compute; intuition discriminate.
  - split; [exact H1 | exact H2].
Defined.

Lemma json_consolidated_last_wins_witness :
  exists out,
    JsonOutput.convert_all_search_results true
      [mkSourceFile (lit "a") (lit "Query: gdp");
       mkSourceFile (lit "b") (lit "Query: gdp" ++ [newline]
                               ++ lit "1. ABC - Title")] true = Ret out /\
    (out = None <->
     true = false \/
     [mkSourceFile (lit "a") (lit "Query: gdp");
      mkSourceFile (lit "b") (lit "Query: gdp" ++ [newline]
                              ++ lit "1. ABC - Title")] = []) /\
    forall w, out = Some w ->
      (forall q,
          dict_get (JsonOutput.consolidated w) q =
          match find (has_label q)
                  (rev [mkSourceFile (lit "a") (lit "Query: gdp");
                        mkSourceFile (lit "b")
                          (lit "Query: gdp" ++ [newline]
                           ++ lit "1. ABC - Title")]) with
          | Some f => Some (parsed f)
          | None => None
          end) /\
      JsonOutput.individual w =
      (if true
       then map (fun f => (file_stem f, parsed f))
              [mkSourceFile (lit "a") (lit "Query: gdp");
               mkSourceFile (lit "b") (lit "Query: gdp" ++ [newline]
                                       ++ lit "1. ABC - Title")]
       else []) /\
      (forall f,
          In f [mkSourceFile (lit "a") (lit "Query: gdp");
                mkSourceFile (lit "b") (lit "Query: gdp" ++ [newline]
                                        ++ lit "1. ABC - Title")] ->
          parse_search_result_file (file_stem f) (file_text f)
          = Done (parsed f)).
Proof.
  exact (json_consolidated_last_wins true
           [mkSourceFile (lit "a") (lit "Query: gdp");
            mkSourceFile (lit "b") (lit "Query: gdp" ++ [newline]
                                    ++ lit "1. ABC - Title")] true).
Defined.

(** Two files with one query label: the consolidated dictionary has a
    single entry, the second file's, and one query is reported for two
    files. *)
Remark same_label_collides :
  collect [mkSourceFile (lit "a") (lit "Query: gdp");
           mkSourceFile (lit "b") (lit "Query: gdp" ++ [newline]
                                   ++ lit "1. ABC - Title")] []
  = [(lit "gdp",
      WithCount (lit "gdp") 1
        [mkSeriesRecord (lit "ABC") (lit "Title") [] [] [] []])].
Proof.
  vm_compute. reflexivity.
Qed.
